(** * ConsentiumJs: the MAC normalizer, the feed flattener and the payload
      builders of the Consentium IoT client helpers.

    Three JavaScript sources are embedded:
    - the Node helper, [src/unnamed/part_000] ([sendData], [receiveData],
      [setBaseUrls], [setSslOptions]): module [NodeHelper];
    - the browser helper, the second half of [src/consentium.js]
      ([sendData], [receiveData], [setProxy]): module [ProxyHelper];
    - the plain API client, the first half of [src/consentium.js]
      ([submitSensorData], [getHistoricalData], [getRecentData]): module
      [ConsentiumThings].
    [normalizeMac], the loops of [receiveData] and the payload literal of
    [sendData] are textually the same in the two helpers and are embedded
    once.

    JavaScript values are trees of plain data.  Strings are Rocq strings
    holding the UTF-8 bytes of the JavaScript string; numbers are IEEE 754
    binary64 floats.  An [async] function that rejects is a function that
    throws.  The object passed as [boardInfo] lives in a store, because
    [sendData] writes to it.  What the engine and the network provide (case
    mapping, number parsing and printing, JSON, [fetch]) is the interface
    [Host]; console output is left out. *)

From Stdlib Require Import String Ascii List ZArith PrimFloat Uint63 DecimalString.
From stdpp Require Import base option list gmap strings.

Set Warnings "-register-all".
Local Open Scope string_scope.

(** ** Values *)

Inductive value : Type :=
| VUndefined
| VNull
| VBool (b : bool)
| VNum (n : float)
| VStr (s : string)
| VArr (elems : list value)
| VObj (props : gmap string value).

(** Objects the caller owns and the code writes to live in a store and are
    passed by reference; everything that is only read is passed by value. *)
Definition loc := positive.
Abbreviation object := (gmap string value).
Abbreviation store := (gmap loc (gmap string value)).

Inductive param : Type :=
| Val (v : value)
| Ref (l : loc).

(** ** Exceptions *)

(** A thrown [Error] object; only its [message] property is ever read. *)
Record error : Type := mkError { message : value }.

Inductive completion (A : Type) : Type :=
| Ok (a : A)
| Throw (e : error).
Arguments Ok {A} a.
Arguments Throw {A} e.

#[global] Instance completion_ret : MRet completion := fun A a => Ok a.
#[global] Instance completion_bind : MBind completion :=
  fun A B f r => match r with Ok a => f a | Throw e => Throw e end.

(** [try { body } catch (err) { handler }] *)
Definition try_catch {A} (body : completion A) (handler : error -> completion A) : completion A :=
  match body with
  | Ok a => Ok a
  | Throw e => handler e
  end.

(** The places where the engine itself raises a [TypeError]. *)
Inductive fault : Type :=
| PropertyOfNullish (key : string)
| NotAFunction (name : string)
| NotIterable.

(** ** The host: engine built-ins and the network *)

Record request : Type := mkRequest {
  req_url : string;
  req_method : string;
  req_headers : list (string * string);
  req_body : option string;
  req_agent : option value
}.

Record response : Type := mkResponse {
  res_ok : bool;
  res_status : float;
  res_statusText : string;
  res_text : completion string
}.

Inductive fetch_outcome : Type :=
| Rejected (err : error)
| Resolved (res : response).

Class Host : Type := {
  (** [String.prototype.toUpperCase] and [toLowerCase] *)
  toUpperCase : string -> string;
  toLowerCase : string -> string;
  (** [Number::toString] and the [StringToNumber] of [Number(s)] *)
  NumberToString : float -> string;
  StringToNumber : string -> float;
  (** [Number.prototype.toFixed(digits)]; a [RangeError] when out of range *)
  toFixed : float -> value -> completion string;
  (** [encodeURIComponent] where it returns: it throws a [URIError] on a
      lone surrogate only, and never on a string of ASCII characters *)
  encodeURIComponent : string -> string;
  (** [JSON.parse]; [None] stands for its [SyntaxError] *)
  JSON_parse : string -> option value;
  JSON_stringify : value -> string;
  fetch : request -> fetch_outcome;
  (** the message text the engine gives its own errors *)
  fault_message : fault -> string;
  syntax_error_message : string -> string
}.

(** ** Character classes *)

Definition is_ascii (c : ascii) : bool := (nat_of_ascii c <? 128)%nat.

Definition is_lower (c : ascii) : bool :=
  ((97 <=? nat_of_ascii c) && (nat_of_ascii c <=? 122))%nat.

Definition is_upper_letter (c : ascii) : bool :=
  ((65 <=? nat_of_ascii c) && (nat_of_ascii c <=? 90))%nat.

(** a member of the class [0-9A-F] *)
Definition is_hex_upper (c : ascii) : bool :=
  (((48 <=? nat_of_ascii c) && (nat_of_ascii c <=? 57))
   || ((65 <=? nat_of_ascii c) && (nat_of_ascii c <=? 70)))%nat.

Definition ascii_upper (c : ascii) : ascii :=
  if is_lower c then ascii_of_nat (nat_of_ascii c - 32) else c.

Definition ascii_lower (c : ascii) : ascii :=
  if is_upper_letter c then ascii_of_nat (nat_of_ascii c + 32) else c.

Fixpoint string_map (f : ascii -> ascii) (s : string) : string :=
  match s with
  | EmptyString => EmptyString
  | String c s' => String (f c) (string_map f s')
  end.

Fixpoint string_forallb (p : ascii -> bool) (s : string) : bool :=
  match s with
  | EmptyString => true
  | String c s' => p c && string_forallb p s'
  end.

Fixpoint string_filter (p : ascii -> bool) (s : string) : string :=
  match s with
  | EmptyString => EmptyString
  | String c s' => if p c then String c (string_filter p s') else string_filter p s'
  end.

(** What every engine guarantees of the case mappings: on a string of ASCII
    characters only the letters change. *)
Class HostLaws (H : Host) : Prop := {
  toUpperCase_ascii : forall s,
    string_forallb is_ascii s = true -> toUpperCase s = string_map ascii_upper s;
  toLowerCase_ascii : forall s,
    string_forallb is_ascii s = true -> toLowerCase s = string_map ascii_lower s
}.

(** ** Language primitives *)

Definition type_error `{Host} (f : fault) : error :=
  mkError (VStr (fault_message f)).

(** ToBoolean *)
Definition truthy (v : value) : bool :=
  match v with
  | VUndefined | VNull => false
  | VBool b => b
  | VNum n => negb (PrimFloat.eqb n PrimFloat.zero || PrimFloat.is_nan n)
  | VStr s => negb (String.eqb s "")
  | VArr _ | VObj _ => true
  end.

(** [a || b] *)
Definition or_else (a b : value) : value := if truthy a then a else b.

(** [v !== undefined] *)
Definition is_defined (v : value) : bool :=
  match v with VUndefined => false | _ => true end.

(** [Array.prototype.join] on strings *)
Fixpoint join (sep : string) (parts : list string) : string :=
  match parts with
  | [] => ""
  | [p] => p
  | p :: rest => p +:+ sep +:+ join sep rest
  end.

Section Primitives.
Context `{Host}.

(** [String(v)] for plain data: arrays join their elements with a comma,
    printing [null] and [undefined] elements as nothing; a plain object
    prints as [[object Object]].  This is the conversion where it returns:
    for an object with an own [toString] key, alone or inside an array,
    [String] and [Number] throw a [TypeError]; on a primitive they always
    return. *)
Fixpoint ToString (v : value) : string :=
  match v with
  | VUndefined => "undefined"
  | VNull => "null"
  | VBool true => "true"
  | VBool false => "false"
  | VNum n => NumberToString n
  | VStr s => s
  | VArr elems =>
      join "," (map (fun e => match e with
                              | VUndefined | VNull => ""
                              | _ => ToString e
                              end) elems)
  | VObj _ => "[object Object]"
  end.

(** [Number(v)] *)
Definition Number (v : value) : float :=
  match v with
  | VUndefined => PrimFloat.nan
  | VNull => PrimFloat.zero
  | VBool true => PrimFloat.one
  | VBool false => PrimFloat.zero
  | VNum n => n
  | VStr s => StringToNumber s
  | VArr _ | VObj _ => StringToNumber (ToString v)
  end.

(** [v[key]] for a property name that no built-in prototype defines (all
    the names this code reads: [info1], [value1], [deviceMAC], ...): an
    own property of an object, [undefined] on anything else, a
    [TypeError] on [null] and [undefined]. *)
Definition get (v : value) (key : string) : completion value :=
  match v with
  | VUndefined | VNull => Throw (type_error (PropertyOfNullish key))
  | VObj props => Ok (default VUndefined (props !! key))
  | _ => Ok VUndefined
  end.
End Primitives.

(** ** The MAC normalizer *)

(** [s.replace(/[^0-9A-F]/g, '')] *)
Definition strip_non_hex (s : string) : string := string_filter is_hex_upper s.

(** [hex.match(/.{1,2}/g)] on a string of hex digits, where [.] matches
    every character: the string cut into pairs from the left, and [null]
    ([None]) when there is nothing to match. *)
Fixpoint pairs (s : string) : list string :=
  match s with
  | EmptyString => []
  | String a EmptyString => [String a EmptyString]
  | String a (String b rest) => String a (String b EmptyString) :: pairs rest
  end.

Definition match_pairs (s : string) : option (list string) :=
  match pairs s with
  | [] => None
  | groups => Some groups
  end.

Section NormalizeMac.
Context `{Host}.

(** The function nested in both [sendData]s, textually the same in the
    Node helper and in the browser helper. *)
Definition normalizeMac (mac : value) : completion value :=
  if negb (truthy mac) then Ok mac
  else
    let hex := strip_non_hex (toUpperCase (ToString mac)) in
    if negb (String.length hex =? 12)%nat then Ok mac
    else
      match match_pairs hex with
      | None => Throw (type_error (PropertyOfNullish "join"))
      | Some groups => Ok (VStr (join ":" groups))
      end.
End NormalizeMac.

(** ** Building blocks shared by the helpers *)

(** [`${prefix}${i}`] for a loop counter [i] *)
Definition indexed_key (prefix : string) (i : nat) : string :=
  prefix +:+ NilZero.string_of_uint (Nat.to_uint i).

(** [s.includes(sub)] *)
Fixpoint includes (s sub : string) : bool :=
  String.prefix sub s ||
  match s with
  | EmptyString => false
  | String _ s' => includes s' sub
  end.

(** [s.startsWith(p)] *)
Definition startsWith (s p : string) : bool := String.prefix p s.

(** A loop whose body may throw: [for (const x of xs) body], and with
    [xs = seq 1 8] the counted loop [for (let i = 1; i <= 8; i++) body]. *)
Fixpoint for_each {A S : Type} (xs : list A) (body : A -> S -> completion S) (s : S)
    : completion S :=
  match xs with
  | [] => Ok s
  | x :: rest => s' ← body x s; for_each rest body s'
  end.

(** [xs.map(f)] with a callback that may throw *)
Fixpoint map_result {A B : Type} (f : A -> completion B) (xs : list A) : completion (list B) :=
  match xs with
  | [] => Ok []
  | x :: rest => y ← f x; ys ← map_result f rest; Ok (y :: ys)
  end.

(** The characters of a string, as [for ... of] yields them. *)
Fixpoint characters (s : string) : list value :=
  match s with
  | EmptyString => []
  | String c s' => VStr (String c EmptyString) :: characters s'
  end.

(** A URL held in a module-level variable is a string or [null]; the empty
    string is falsy, so [url || null] and [url ? a : b] treat it as [null]. *)
Definition url_or_null (url : option string) : option string :=
  match url with
  | Some u => if String.eqb u "" then None else Some u
  | None => None
  end.

(** [url || fallback] *)
Definition url_or (url : option string) (fallback : string) : string :=
  match url_or_null url with
  | Some u => u
  | None => fallback
  end.

(** Object literals *)
Definition obj (fields : list (string * value)) : value :=
  VObj (list_to_map fields).

Section Shared.
Context `{Host}.

(** What [for (const feed of feeds)] iterates over: the elements of an
    array, the characters of a string; anything else is not iterable. *)
Definition iterate (v : value) : completion (list value) :=
  match v with
  | VArr elems => Ok elems
  | VStr s => Ok (characters s)
  | _ => Throw (type_error NotIterable)
  end.

(** The body of the inner loop of [receiveData]. *)
Definition flatten_index (board feed : value) (i : nat) (result : list value)
    : completion (list value) :=
  let infoKey := indexed_key "info" i in
  let valueKey := indexed_key "value" i in
  info ← get board infoKey;
  if is_defined info then
    raw ← get feed valueKey;
    if is_defined raw then
      Ok (result ++ [obj [("info", info); ("value", VNum (Number raw))]])%list
    else Ok result
  else Ok result.

(** [receiveData] from [const board = json.board || {}] to the end of the
    loops, textually the same in both helpers; [json] is truthy there. *)
Definition flatten (json : value) : completion (list value) :=
  b ← get json "board";
  let board := or_else b (obj []) in
  f ← get json "feeds";
  let feeds := or_else f (VArr []) in
  let result := [] in
  feedList ← iterate feeds;
  for_each feedList
    (fun feed result => for_each (seq 1 8) (flatten_index board feed) result)
    result.

(** [(typeof err.message === 'string' &&
      err.message.toLowerCase().includes('failed to fetch')) ? text : err.message] *)
Definition hint (text : string) (err : error) : value :=
  match message err with
  | VStr m => if includes (toLowerCase m) "failed to fetch" then VStr text else VStr m
  | other => other
  end.

(** [await fetch(url, opts)] *)
Definition await_fetch (req : request) : completion response :=
  match fetch req with
  | Rejected err => Throw err
  | Resolved res => Ok res
  end.

(** [let body = text; try { body = JSON.parse(text); } catch (e) { }] *)
Definition parse_or_text (text : string) : value :=
  match JSON_parse text with
  | Some parsed => parsed
  | None => VStr text
  end.

(** [try { json = JSON.parse(text); } catch (e) { json = null; }] *)
Definition parse_or_null (text : string) : value :=
  match JSON_parse text with
  | Some parsed => parsed
  | None => VNull
  end.

(** The part of [receiveData] after the text of the response is read. *)
Definition receive_result (res : response) (text : string) : completion value :=
  let json := parse_or_null text in
  if negb (truthy json) then
    Ok (obj [("ok", VBool (res_ok res)); ("status", VNum (res_status res));
             ("body", VStr text)])
  else
    result ← flatten json;
    Ok (obj [("ok", VBool (res_ok res)); ("status", VNum (res_status res));
             ("feeds", VArr result); ("body", json)]).

(** [{ ok: false, status: 0, error: hint }] *)
Definition failure (text : string) (err : error) : value :=
  obj [("ok", VBool false); ("status", VNum PrimFloat.zero); ("error", hint text err)].

(** *** The start of [sendData], the same in both helpers *)

(** Binding the [boardInfo = {}] parameter: a missing argument is a fresh
    empty object; an object passed by value is one nobody else holds. *)
Definition bind_boardInfo (st : store) (boardInfo : param) : store * param :=
  match boardInfo with
  | Val VUndefined => let l := fresh (dom st) in (<[l := ∅]> st, Ref l)
  | Val (VObj props) => let l := fresh (dom st) in (<[l := props]> st, Ref l)
  | other => (st, other)
  end.

(** [precision = 4] *)
Definition bind_precision (precision : value) : value :=
  match precision with
  | VUndefined => VNum 4%float
  | other => other
  end.

(** [boardInfo.key] *)
Definition load (st : store) (boardInfo : param) (key : string) : completion value :=
  match boardInfo with
  | Ref l => get (VObj (default ∅ (st !! l))) key
  | Val v => get v key
  end.

(** [boardInfo.key = v] *)
Definition assign (st : store) (boardInfo : param) (key : string) (v : value) : store :=
  match boardInfo with
  | Ref l => <[l := <[key := v]> (default ∅ (st !! l))]> st
  | Val _ => st
  end.

Definition truthy_param (p : param) : bool :=
  match p with
  | Ref _ => true
  | Val v => truthy v
  end.

(** [if (boardInfo && boardInfo.deviceMAC)
      boardInfo.deviceMAC = normalizeMac(boardInfo.deviceMAC);] *)
Definition normalize_deviceMAC (st : store) (boardInfo : param) : store * completion unit :=
  if truthy_param boardInfo then
    match load st boardInfo "deviceMAC" with
    | Throw e => (st, Throw e)
    | Ok mac =>
        if truthy mac then
          match normalizeMac mac with
          | Throw e => (st, Throw e)
          | Ok normalized => (assign st boardInfo "deviceMAC" normalized, Ok tt)
          end
        else (st, Ok tt)
    end
  else (st, Ok tt).

(** [s => ({ info: s.info, data: Number(s.value).toFixed(precision) })] *)
Definition sensor_entry (precision : value) (s : value) : completion value :=
  info ← get s "info";
  v ← get s "value";
  data ← toFixed (Number v) precision;
  Ok (obj [("info", info); ("data", VStr data)]).

(** [sensors.map(f)] *)
Definition array_map (f : value -> completion value) (sensors : value) : completion value :=
  match sensors with
  | VArr elems => elems' ← map_result f elems; Ok (VArr elems')
  | VUndefined | VNull => Throw (type_error (PropertyOfNullish "map"))
  | _ => Throw (type_error (NotAFunction "map"))
  end.

(** [const payload = { sensors: {...}, boardInfo: {...} }] *)
Definition payload (st : store) (sensors : value) (boardInfo : param)
    (precision : value) : completion value :=
  sensorData ← array_map (sensor_entry precision) sensors;
  firmwareVersion ← load st boardInfo "firmwareVersion";
  architecture ← load st boardInfo "architecture";
  deviceMAC ← load st boardInfo "deviceMAC";
  statusOTA ← load st boardInfo "statusOTA";
  signalStrength ← load st boardInfo "signalStrength";
  Ok (obj [
    ("sensors", obj [("sensorData", sensorData)]);
    ("boardInfo", obj [
      ("firmwareVersion", or_else firmwareVersion (VStr "0.0"));
      ("architecture", or_else architecture (VStr "unknown"));
      ("deviceMAC", or_else deviceMAC (VStr "00:00:00:00:00:00"));
      ("statusOTA", VBool (truthy statusOTA));
      ("signalStrength", or_else signalStrength (VNum PrimFloat.zero))])]).

(** The response handling of [sendData]:
    [{ ok: res.ok, status: res.status, body }] *)
Definition send_result (res : response) : completion value :=
  text ← res_text res;
  let body := parse_or_text text in
  Ok (obj [("ok", VBool (res_ok res)); ("status", VNum (res_status res));
           ("body", body)]).

(** The [try]/[catch] that ends [sendData]:
    [try { const res = await fetch(url, opts); ...; return { ok, status, body }; }
     catch (err) { return { ok: false, status: 0, error: hint }; }] *)
Definition transmit (opts : request) (text : string) : completion value :=
  try_catch
    (res ← await_fetch opts;
     send_result res)
    (fun err => Ok (failure text err)).
End Shared.

(** ** The specification's reading of the feed flattener *)

(** A wide-feed document: a board of labels and a sequence of feeds. *)
Definition wide_feed_document (board : gmap string value)
    (feeds : list (gmap string value)) : value :=
  obj [("board", VObj board); ("feeds", VArr (VObj <$> feeds))].

(** [v.key] of a value known not to be [null] or [undefined] *)
Definition field (v : value) (key : string) : value :=
  match v with
  | VObj props => default VUndefined (props !! key)
  | _ => VUndefined
  end.



Section FlattenSpec.
Context `{Host}.

(** [SensorReading{info, value: numericCoercion(raw)}] *)
Definition reading (info raw : value) : value :=
  obj [("info", info); ("value", VNum (Number raw))].

(** What index [i] of one feed contributes: one reading when both
    [board["info" + i]] and [feed["value" + i]] are defined, nothing
    otherwise. *)
Definition emitted (board feed : gmap string value) (i : nat) : list value :=
  match board !! indexed_key "info" i, feed !! indexed_key "value" i with
  | Some info, Some raw =>
      if is_defined info && is_defined raw then [reading info raw] else []
  | _, _ => []
  end.

(** One feed: indices 1 to 8 in ascending order. *)
Definition feed_readings (board feed : gmap string value) : list value :=
  (emitted board feed 1 ++ emitted board feed 2 ++ emitted board feed 3
   ++ emitted board feed 4 ++ emitted board feed 5 ++ emitted board feed 6
   ++ emitted board feed 7 ++ emitted board feed 8)%list.

(** All feeds, in document order. *)
Definition flatten_spec (board : gmap string value) (feeds : list (gmap string value))
    : list value :=
  concat (map (feed_readings board) feeds).
End FlattenSpec.

(** ** The Node helper *)

Module NodeHelper.

Definition DEFAULT_SEND_URL : string := "https://api.consentiumiot.com/v2/updateData?".
Definition DEFAULT_RECEIVE_URL : string := "https://api.consentiumiot.com/getData?".

(** The module-level variables; a URL is a string or [null] ([None]). *)
Record config : Type := mkConfig {
  sslOptions : value;
  overrideSendUrl : option string;
  overrideReceiveUrl : option string
}.

Definition initial : config :=
  {| sslOptions := VNull; overrideSendUrl := None; overrideReceiveUrl := None |}.

Definition setSslOptions (options : value) (c : config) : config :=
  {| sslOptions := or_else options VNull;
     overrideSendUrl := overrideSendUrl c;
     overrideReceiveUrl := overrideReceiveUrl c |}.

Definition setBaseUrls (sendUrl receiveUrl : option string) (c : config) : config :=
  {| sslOptions := sslOptions c;
     overrideSendUrl := url_or_null sendUrl;
     overrideReceiveUrl := url_or_null receiveUrl |}.

Definition FETCH_HINT : string :=
  "Failed to fetch — network or CORS issue when called from a browser. Use server-side call or a proxy.".

Section Calls.
Context `{Host}.

(** [sslOptions && url.startsWith('https:')] guards
    [fetchOpts.agent = new https.Agent(sslOptions)].  The agent is given by
    the options it was made from, for options the constructor accepts;
    without options, or with a URL that is not https, the constructor is
    not called. *)
Definition agent_for (c : config) (url : string) : option value :=
  if truthy (sslOptions c) && startsWith url "https:" then Some (sslOptions c) else None.

Definition sendData (c : config) (st : store) (sendKey boardKey : string)
    (sensors : value) (boardInfo : param) (precision : value)
    : store * completion value :=
  let '(st, boardInfo) := bind_boardInfo st boardInfo in
  let precision := bind_precision precision in
  let base := url_or (overrideSendUrl c) DEFAULT_SEND_URL in
  let url := base +:+ "sendKey=" +:+ encodeURIComponent sendKey
             +:+ "&boardKey=" +:+ encodeURIComponent boardKey in
  match normalize_deviceMAC st boardInfo with
  | (st, Throw e) => (st, Throw e)
  | (st, Ok _) =>
      match payload st sensors boardInfo precision with
      | Throw e => (st, Throw e)
      | Ok payload =>
          let fetchOpts :=
            {| req_url := url;
               req_method := "POST";
               req_headers := [("Content-Type", "application/json")];
               req_body := Some (JSON_stringify payload);
               req_agent := agent_for c url |} in
          (st, transmit fetchOpts FETCH_HINT)
      end
  end.

Definition receiveData (c : config) (receiveKey boardKey : string) (recents : value)
    : completion value :=
  let recents := match recents with VUndefined => VBool true | other => other end in
  let base := url_or (overrideReceiveUrl c) DEFAULT_RECEIVE_URL in
  let url := base +:+ "recents=" +:+ (if truthy recents then "true" else "false")
             +:+ "&receiveKey=" +:+ encodeURIComponent receiveKey
             +:+ "&boardKey=" +:+ encodeURIComponent boardKey in
  try_catch
    (let fetchOpts :=
       {| req_url := url; req_method := "GET"; req_headers := [];
          req_body := None; req_agent := agent_for c url |} in
     res ← await_fetch fetchOpts;
     text ← res_text res;
     receive_result res text)
    (fun err => Ok (failure FETCH_HINT err)).
End Calls.

End NodeHelper.

(** ** The browser helper *)

Module ProxyHelper.

Definition DEFAULT_SEND_URL : string := "https://api.consentiumiot.com/v2/updateData?".
Definition DEFAULT_RECEIVE_URL : string := "https://api.consentiumiot.com/getData?".

(** The module-level variable [proxyBase], ['/api'] when the module loads. *)
Record config : Type := mkConfig { proxyBase : option string }.

Definition initial : config := {| proxyBase := Some "/api" |}.

Definition setProxy (baseUrl : option string) (c : config) : config :=
  {| proxyBase := url_or_null baseUrl |}.

Definition SEND_HINT : string :=
  "Failed to fetch — this may be a CORS issue in the browser. Try using a same-origin proxy (setProxy) or run server-side.".

Definition RECEIVE_HINT : string :=
  "Failed to fetch — likely a CORS/preflight block. Configure a same-origin proxy with setProxy() or run server-side code.".

(** [s.replace(/\/$/, '')] *)
Fixpoint strip_trailing_slash (s : string) : string :=
  match s with
  | EmptyString => EmptyString
  | String c EmptyString => if Ascii.eqb c "/" then EmptyString else s
  | String c rest => String c (strip_trailing_slash rest)
  end.

Section Calls.
Context `{Host}.

(** [{ sendKey, boardKey, sensors, boardInfo }], with the object
    [boardInfo] refers to as it is at that moment. *)
Definition relayed (st : store) (sendKey boardKey : string) (sensors : value)
    (boardInfo : param) : value :=
  obj [("sendKey", VStr sendKey); ("boardKey", VStr boardKey); ("sensors", sensors);
       ("boardInfo", match boardInfo with
                     | Ref l => VObj (default ∅ (st !! l))
                     | Val v => v
                     end)].

Definition sendData (c : config) (st : store) (sendKey boardKey : string)
    (sensors : value) (boardInfo : param) (precision : value)
    : store * completion value :=
  let '(st, boardInfo) := bind_boardInfo st boardInfo in
  let precision := bind_precision precision in
  let url :=
    match url_or_null (proxyBase c) with
    | Some proxyBase => strip_trailing_slash proxyBase +:+ "/send"
    | None => DEFAULT_SEND_URL +:+ "sendKey=" +:+ encodeURIComponent sendKey
              +:+ "&boardKey=" +:+ encodeURIComponent boardKey
    end in
  match normalize_deviceMAC st boardInfo with
  | (st, Throw e) => (st, Throw e)
  | (st, Ok _) =>
      match payload st sensors boardInfo precision with
      | Throw e => (st, Throw e)
      | Ok payload =>
          let opts :=
            {| req_url := url;
               req_method := "POST";
               req_headers := [("Content-Type", "application/json")];
               req_body :=
                 Some (match url_or_null (proxyBase c) with
                       | Some _ =>
                           JSON_stringify (relayed st sendKey boardKey sensors boardInfo)
                       | None => JSON_stringify payload
                       end);
               req_agent := None |} in
          (st, transmit opts SEND_HINT)
      end
  end.

Definition receiveData (c : config) (receiveKey boardKey : string) (recents : value)
    : completion value :=
  let recents := match recents with VUndefined => VBool true | other => other end in
  let url :=
    match url_or_null (proxyBase c) with
    | Some proxyBase =>
        strip_trailing_slash proxyBase
        +:+ "/receive?receiveKey=" +:+ encodeURIComponent receiveKey
        +:+ "&boardKey=" +:+ encodeURIComponent boardKey
        +:+ "&recents=" +:+ (if truthy recents then "true" else "false")
    | None =>
        DEFAULT_RECEIVE_URL +:+ "recents=" +:+ (if truthy recents then "true" else "false")
        +:+ "&receiveKey=" +:+ encodeURIComponent receiveKey
        +:+ "&boardKey=" +:+ encodeURIComponent boardKey
    end in
  try_catch
    (res ← await_fetch {| req_url := url; req_method := "GET"; req_headers := [];
                          req_body := None; req_agent := None |};
     text ← res_text res;
     receive_result res text)
    (fun err => Ok (failure RECEIVE_HINT err)).
End Calls.

End ProxyHelper.

(** ** The plain API client *)

Module ConsentiumThings.

Definition API_BASE_URL : string := "https://api.consentiumiot.com".

(** [const dataPayload = {...}] followed by
    [if (signalStrength === null) delete dataPayload.boardInfo.signalStrength] *)
Definition dataPayload (sensorArray macAddress architecture firmwareVersion
    statusOTA signalStrength : value) : value :=
  let boardInfo : gmap string value :=
    list_to_map [("firmwareVersion", firmwareVersion);
                 ("architecture", architecture);
                 ("statusOTA", statusOTA);
                 ("deviceMAC", macAddress);
                 ("signalStrength", signalStrength)] in
  obj [("sensors", obj [("sensorData", sensorArray)]);
       ("boardInfo", VObj (match signalStrength with
                           | VNull => delete "signalStrength" boardInfo
                           | _ => boardInfo
                           end))].

Section Calls.
Context `{Host}.

(** [await response.json()] *)
Definition response_json (res : response) : completion value :=
  text ← res_text res;
  match JSON_parse text with
  | Some parsed => Ok parsed
  | None => Throw (mkError (VStr (syntax_error_message text)))
  end.

(** The [try] block shared by the three calls: read the JSON body, throw
    on a status that is not ok, return the body otherwise; the [catch]
    logs and throws the error again. *)
Definition exchange (req : request) : completion value :=
  try_catch
    (response ← await_fetch req;
     responseData ← response_json response;
     if negb (res_ok response) then
       m ← get responseData "message";
       Throw (mkError (VStr ("API request failed with status "
                             +:+ NumberToString (res_status response) +:+ ": "
                             +:+ ToString (or_else m (VStr (res_statusText response))))))
     else Ok responseData)
    (fun error => Throw error).

Definition submitSensorData (sendKey boardKey : string)
    (sensorArray macAddress architecture firmwareVersion statusOTA signalStrength : value)
    : completion value :=
  let statusOTA := match statusOTA with VUndefined => VBool false | other => other end in
  let signalStrength := match signalStrength with VUndefined => VNull | other => other end in
  let dataPayload := dataPayload sensorArray macAddress architecture firmwareVersion
                       statusOTA signalStrength in
  let endpoint := API_BASE_URL +:+ "/v2/updateData?sendKey=" +:+ encodeURIComponent sendKey
                  +:+ "&boardKey=" +:+ encodeURIComponent boardKey in
  exchange {| req_url := endpoint;
              req_method := "POST";
              req_headers := [("Content-Type", "application/json")];
              req_body := Some (JSON_stringify dataPayload);
              req_agent := None |}.

Definition getHistoricalData (receiveKey boardKey : string) : completion value :=
  let endpoint := API_BASE_URL +:+ "/getData?receiveKey=" +:+ encodeURIComponent receiveKey
                  +:+ "&boardKey=" +:+ encodeURIComponent boardKey in
  exchange {| req_url := endpoint; req_method := "GET"; req_headers := [];
              req_body := None; req_agent := None |}.

Definition getRecentData (receiveKey boardKey : string) : completion value :=
  let endpoint := API_BASE_URL +:+ "/getData?recents=true&receiveKey="
                  +:+ encodeURIComponent receiveKey
                  +:+ "&boardKey=" +:+ encodeURIComponent boardKey in
  exchange {| req_url := endpoint; req_method := "GET"; req_headers := [];
              req_body := None; req_agent := None |}.
End Calls.

End ConsentiumThings.

(** ** The specification's reading of the MAC normalizer *)

(** Twelve hex digits, and the same digits as six pairs joined by [:]. *)
Definition hex12 (a b c d e f g h i j k l : ascii) : string :=
  string_of_list_ascii [a; b; c; d; e; f; g; h; i; j; k; l].

Definition colon_pairs (a b c d e f g h i j k l : ascii) : string :=
  string_of_list_ascii
    [a; b; ":"%char; c; d; ":"%char; e; f; ":"%char;
     g; h; ":"%char; i; j; ":"%char; k; l].

(** ** The frame of [sendData] on the store *)

(** Between the stores [st] and [st'] the object at [l], [props] before,
    has its [deviceMAC] set to [n] and nothing else changed; every other
    object is as it was. *)
Definition only_deviceMAC_written (st st' : store) (l : loc) (props : gmap string value)
    (n : value) : Prop :=
  exists props' : gmap string value,
    st' !! l = Some props'
    ∧ props' !! "deviceMAC" = Some n
    ∧ (∀ key : string, key ≠ "deviceMAC" -> props' !! key = props !! key)
    ∧ (∀ l' : loc, l' ≠ l -> st' !! l' = st !! l').

(** ** A host for running the model on concrete inputs *)

(** Decimal printing of the integers from 0 to 999; any other number
    prints as ["NaN"]. *)
Definition print_small_integer (n : float) : string :=
  match List.find
          (fun k => PrimFloat.eqb n (PrimFloat.of_uint63 (Uint63.of_Z (Z.of_nat k))))
          (seq 0 1000) with
  | Some k => NilZero.string_of_uint (Nat.to_uint k)
  | None => "NaN"
  end.

(** ASCII case mapping; small integers print in decimal, and to four places
    with [toFixed(4)]; strings parse to [NaN]; the network and the JSON
    parser are the two arguments. *)
Definition mock_host (net : request -> fetch_outcome)
    (parse : string -> option value) : Host :=
  {| toUpperCase := string_map ascii_upper;
     toLowerCase := string_map ascii_lower;
     NumberToString := print_small_integer;
     StringToNumber := fun _ => PrimFloat.nan;
     toFixed := fun x digits =>
                  match digits, print_small_integer x with
                  | VNum d, String c rest =>
                      if PrimFloat.eqb d 4%float && negb (Ascii.eqb c "N")
                      then Ok (String c rest +:+ ".0000")
                      else Ok "NaN"
                  | _, _ => Ok "NaN"
                  end;
     encodeURIComponent := fun s => s;
     JSON_parse := parse;
     JSON_stringify := fun _ => "{}";
     fetch := net;
     fault_message := fun _ => "TypeError";
     syntax_error_message := fun _ => "SyntaxError" |}.

(** No network: every request is rejected. *)
Definition offline : request -> fetch_outcome :=
  fun _ => Rejected (mkError (VStr "Failed to fetch")).

(** A server that answers every request with status 500. *)
Definition server_error : request -> fetch_outcome :=
  fun _ => Resolved {| res_ok := false; res_status := 500%float;
                       res_statusText := "Internal Server Error";
                       res_text := Ok "{}" |}.

(** A server that answers every request with a page that is not JSON. *)
Definition html_page : request -> fetch_outcome :=
  fun _ => Resolved {| res_ok := true; res_status := 200%float;
                       res_statusText := "OK";
                       res_text := Ok "<html></html>" |}.

Definition no_json : string -> option value := fun _ => None.


(** A caller's [boardInfo] object at location 1. *)
Definition board0 : gmap string value :=
  list_to_map [("deviceMAC", VStr "aa-bb-cc-11-22-33"); ("architecture", VStr "ESP32")].

Definition store0 : store := {[ 1%positive := board0 ]}.

Definition sensors0 : list (gmap string value) :=
  [list_to_map [("info", VStr "Temperature"); ("value", VNum 25%float)]].

(** * Properties *)

Lemma mock_host_laws net parse : HostLaws (mock_host net parse).
Proof. split; intros s _; reflexivity. Qed.

Lemma mock_toFixed_returns net parse digits x :
  exists d, toFixed (Host := mock_host net parse) x digits = Ok d.
Proof.
  cbn [toFixed mock_host].
  destruct digits; try (by eexists).
  destruct (print_small_integer x) as [|c rest]; [by eexists|].
  match goal with |- context [if ?b then _ else _] => destruct b end; by eexists.
Qed.

Example normalizeMac_example :
  normalizeMac (H := mock_host offline no_json) (VStr "aa-bb-cc-11-22-33")
  = Ok (VStr "AA:BB:CC:11:22:33").
Proof. reflexivity. Qed.

(** ** Reading object literals *)

Lemma bind_Ok {A B} (a : A) (k : A -> completion B) : (mbind k (Ok a)) = k a.
Proof. reflexivity. Qed.

Lemma for_each_cons {A S} (x : A) rest (body : A -> S -> completion S) s :
  for_each (x :: rest) body s = mbind (for_each rest body) (body x s).
Proof. reflexivity. Qed.

Section FlattenProofs.
Context `{Host}.

Lemma flatten_index_emitted board feed i acc :
  flatten_index (VObj board) (VObj feed) i acc = Ok (acc ++ emitted board feed i)%list.
Proof.
  unfold flatten_index, emitted, get.
  rewrite bind_Ok.
  destruct (board !! indexed_key "info" i) as [info|]; simpl.
  - destruct (is_defined info); simpl.
    + destruct (feed !! indexed_key "value" i) as [raw|]; simpl.
      * destruct (is_defined raw); simpl; [reflexivity | by rewrite app_nil_r].
      * by rewrite app_nil_r.
    + destruct (feed !! indexed_key "value" i); by rewrite app_nil_r.
  - by rewrite app_nil_r.
Qed.

Lemma for_each_indices board feed (indices : list nat) acc :
  for_each indices (flatten_index (VObj board) (VObj feed)) acc
  = Ok (acc ++ flat_map (emitted board feed) indices)%list.
Proof.
  revert acc; induction indices as [|i rest IH]; intros acc; simpl.
  - by rewrite app_nil_r.
  - rewrite flatten_index_emitted, bind_Ok, IH. by rewrite <- app_assoc.
Qed.

Lemma indices_1_to_8 board feed :
  flat_map (emitted board feed) (seq 1 8) = feed_readings board feed.
Proof. unfold feed_readings; simpl. by rewrite app_nil_r. Qed.

Lemma for_each_feeds board (feeds : list (gmap string value)) acc :
  for_each (VObj <$> feeds)
    (fun feed result => for_each (seq 1 8) (flatten_index (VObj board) feed) result) acc
  = Ok (acc ++ flatten_spec board feeds)%list.
Proof.
  revert acc; induction feeds as [|feed rest IH]; intros acc.
  - simpl. by rewrite app_nil_r.
  - rewrite fmap_cons, for_each_cons.
    rewrite for_each_indices, bind_Ok, IH, indices_1_to_8.
    unfold flatten_spec; simpl. by rewrite <- app_assoc.
Qed.

Lemma flatten_document board feeds :
  flatten (wide_feed_document board feeds) = Ok (flatten_spec board feeds).
Proof.
  unfold flatten, wide_feed_document.
  assert (Hb : get (obj [("board", VObj board); ("feeds", VArr (VObj <$> feeds))]) "board"
               = Ok (VObj board)) by reflexivity.
  assert (Hf : get (obj [("board", VObj board); ("feeds", VArr (VObj <$> feeds))]) "feeds"
               = Ok (VArr (VObj <$> feeds))) by reflexivity.
  rewrite Hb, bind_Ok, Hf, bind_Ok. simpl or_else. simpl iterate. rewrite bind_Ok.
  apply for_each_feeds.
Qed.
End FlattenProofs.

(** ** The feed flattener *)

Section FlattenClaims.
Context `{Host}.

Lemma emitted_exactly board feed i :
  emitted board feed i
  = if is_defined (field (VObj board) (indexed_key "info" i))
       && is_defined (field (VObj feed) (indexed_key "value" i))
    then [obj [("info", field (VObj board) (indexed_key "info" i));
               ("value", VNum (Number (field (VObj feed) (indexed_key "value" i))))]]
    else [].
Proof.
  unfold emitted, field, reading.
  destruct (board !! indexed_key "info" i) as [info|]; simpl; [|reflexivity].
  destruct (feed !! indexed_key "value" i) as [raw|]; simpl; [reflexivity|].
  by rewrite andb_false_r.
Qed.

Lemma emitted_at_most_one board feed i : (List.length (emitted board feed i) ≤ 1)%nat.
Proof. rewrite emitted_exactly. case (_ && _); simpl; lia. Qed.

Lemma flatten_spec_app board fs1 fs2 :
  flatten_spec board (fs1 ++ fs2) = (flatten_spec board fs1 ++ flatten_spec board fs2)%list.
Proof. unfold flatten_spec. by rewrite map_app, concat_app. Qed.

Lemma flatten_spec_cons board f fs :
  flatten_spec board (f :: fs) = (feed_readings board f ++ flatten_spec board fs)%list.
Proof. reflexivity. Qed.

(** C1. For every wide-feed document the flattener emits, for a feed and
    an index [i] from 1 to 8, the reading
    [{info: board["info"+i], value: Number(feed["value"+i])}] exactly when
    both [board["info"+i]] and [feed["value"+i]] are defined; a value of
    [0] and an empty label count as defined, and nothing is emitted when
    either side is absent.  The last part is the example of the
    specification with labels at 1 and 3 and values at 1, 2 and 3. *)
Theorem flatten_emits_defined_pairs (board : gmap string value)
    (feeds : list (gmap string value)) :
  flatten (wide_feed_document board feeds)
  = Ok (concat (map (fun feed => flat_map (emitted board feed) (seq 1 8)) feeds))
  ∧ (∀ feed i,
       emitted board feed i
       = if is_defined (field (VObj board) (indexed_key "info" i))
            && is_defined (field (VObj feed) (indexed_key "value" i))
         then [obj [("info", field (VObj board) (indexed_key "info" i));
                    ("value", VNum (Number (field (VObj feed) (indexed_key "value" i))))]]
         else [])
  ∧ flatten (wide_feed_document {[ "info1" := VStr "" ]} [ {[ "value1" := VNum 0%float ]} ])
    = Ok [obj [("info", VStr ""); ("value", VNum 0%float)]]
  ∧ flatten (wide_feed_document
               (list_to_map [("info1", VStr "Temp"); ("info3", VStr "Light")])
               [list_to_map [("value1", VNum 10%float); ("value2", VNum 99%float);
                             ("value3", VNum 20%float)]])
    = Ok [obj [("info", VStr "Temp"); ("value", VNum 10%float)];
          obj [("info", VStr "Light"); ("value", VNum 20%float)]].
Proof.
  split; [|split; [|split]].
  - rewrite flatten_document. unfold flatten_spec. do 2 f_equal.
    apply map_ext; intros feed. symmetry; apply indices_1_to_8.
  - apply emitted_exactly.
  - rewrite flatten_document. vm_compute. reflexivity.
  - rewrite flatten_document. vm_compute. reflexivity.
Qed.

(** C2. The output of the flattener follows the feeds in their input
    order and, within one feed, the indices 1 to 8 in ascending order:
    the readings of an earlier feed all come before those of a later
    feed. *)
Theorem flatten_order (board : gmap string value)
    (before : list (gmap string value)) (earlier : gmap string value)
    (between : list (gmap string value)) (later : gmap string value)
    (after : list (gmap string value)) :
  flatten (wide_feed_document board (before ++ earlier :: between ++ later :: after))
  = Ok (flatten_spec board before ++ feed_readings board earlier
        ++ flatten_spec board between ++ feed_readings board later
        ++ flatten_spec board after)%list
  ∧ flatten (wide_feed_document board [earlier])
    = Ok (emitted board earlier 1 ++ emitted board earlier 2 ++ emitted board earlier 3
          ++ emitted board earlier 4 ++ emitted board earlier 5 ++ emitted board earlier 6
          ++ emitted board earlier 7 ++ emitted board earlier 8)%list
  ∧ (∀ i, (List.length (emitted board earlier i) ≤ 1)%nat)
  ∧ (∀ fs, flatten (wide_feed_document board fs) = Ok (flatten_spec board fs)).
Proof.
  split; [|split; [|split]].
  - rewrite flatten_document.
    by rewrite flatten_spec_app, flatten_spec_cons, flatten_spec_app, flatten_spec_cons.
  - rewrite flatten_document. unfold flatten_spec; simpl. by rewrite app_nil_r.
  - apply emitted_at_most_one.
  - apply flatten_document.
Qed.
End FlattenClaims.

(** ** The MAC normalizer *)

Lemma hex_char_ascii c : is_hex_upper c = true -> is_ascii c = true.
Proof.
  destruct c as [[] [] [] [] [] [] [] []]; vm_compute; intros Hc;
    try reflexivity; discriminate Hc.
Qed.

Lemma hex_char_upper c : is_hex_upper c = true -> ascii_upper c = c.
Proof.
  destruct c as [[] [] [] [] [] [] [] []]; vm_compute; intros Hc;
    try reflexivity; discriminate Hc.
Qed.

Lemma string_filter_forallb p s : string_forallb p (string_filter p s) = true.
Proof.
  induction s as [|c s IH]; simpl; [reflexivity|].
  destruct (p c) eqn:Hc; simpl; [by rewrite Hc|done].
Qed.

Lemma string_filter_keep p c s :
  p c = true -> string_filter p (String c s) = String c (string_filter p s).
Proof. intros Hc; simpl. by rewrite Hc. Qed.

Lemma string_length_12 (s : string) :
  String.length s = 12 ->
  exists a b c d e f g h i j k l, s = hex12 a b c d e f g h i j k l.
Proof.
  intros Hlen.
  do 12 (destruct s as [|? s]; [discriminate Hlen|]).
  destruct s; [|discriminate Hlen].
  by do 12 eexists.
Qed.

Section NormalizeMacProofs.
Context `{Host}.

Lemma normalizeMac_falsy mac : truthy mac = false -> normalizeMac mac = Ok mac.
Proof. intros Hf; unfold normalizeMac. by rewrite Hf. Qed.

Lemma normalizeMac_other_length mac :
  String.length (strip_non_hex (toUpperCase (ToString mac))) ≠ 12 ->
  normalizeMac mac = Ok mac.
Proof.
  intros Hlen; unfold normalizeMac.
  destruct (truthy mac); simpl; [|reflexivity].
  destruct (Nat.eqb_spec (String.length (strip_non_hex (toUpperCase (ToString mac)))) 12);
    [contradiction|reflexivity].
Qed.

Lemma normalizeMac_hex12 mac a b c d e f g h i j k l :
  truthy mac = true ->
  strip_non_hex (toUpperCase (ToString mac)) = hex12 a b c d e f g h i j k l ->
  normalizeMac mac = Ok (VStr (colon_pairs a b c d e f g h i j k l)).
Proof.
  intros Ht Hhex; unfold normalizeMac. rewrite Ht, Hhex. reflexivity.
Qed.

Lemma normalizeMac_returns mac : exists v, normalizeMac mac = Ok v.
Proof.
  destruct (truthy mac) eqn:Ht; [|eexists; by apply normalizeMac_falsy].
  destruct (Nat.eq_dec (String.length (strip_non_hex (toUpperCase (ToString mac)))) 12)
    as [Hlen|Hlen]; [|eexists; by apply normalizeMac_other_length].
  destruct (string_length_12 _ Hlen) as (a & b & c & d & e & f & g & h & i & j & k & l & Hhex).
  eexists; by apply normalizeMac_hex12.
Qed.

Lemma hex12_digits s a b c d e f g h i j k l :
  strip_non_hex s = hex12 a b c d e f g h i j k l ->
  forallb is_hex_upper [a; b; c; d; e; f; g; h; i; j; k; l] = true.
Proof.
  intros Hhex. pose proof (string_filter_forallb is_hex_upper s) as Hall.
  unfold strip_non_hex in Hhex. rewrite Hhex in Hall.
  cbn [hex12 string_of_list_ascii string_forallb] in Hall.
  cbn [forallb]. exact Hall.
Qed.

Context `{!HostLaws H}.

Lemma toUpperCase_empty : toUpperCase "" = "".
Proof. by rewrite toUpperCase_ascii. Qed.

Lemma twelve_hex_truthy s :
  String.length (strip_non_hex (toUpperCase s)) = 12 -> truthy (VStr s) = true.
Proof.
  destruct s; [|reflexivity].
  rewrite toUpperCase_empty. discriminate.
Qed.

Lemma normalizeMac_canonical s :
  String.length (strip_non_hex (toUpperCase s)) = 12 ->
  exists a b c d e f g h i j k l,
    strip_non_hex (toUpperCase s) = hex12 a b c d e f g h i j k l
    ∧ forallb is_hex_upper [a; b; c; d; e; f; g; h; i; j; k; l] = true
    ∧ normalizeMac (VStr s) = Ok (VStr (colon_pairs a b c d e f g h i j k l)).
Proof.
  intros Hlen.
  destruct (string_length_12 _ Hlen) as (a & b & c & d & e & f & g & h & i & j & k & l & Hhex).
  exists a, b, c, d, e, f, g, h, i, j, k, l. split; [done|split].
  - by eapply hex12_digits.
  - apply normalizeMac_hex12; [by apply twelve_hex_truthy | done].
Qed.

Lemma colon_pairs_fixed a b c d e f g h i j k l :
  forallb is_hex_upper [a; b; c; d; e; f; g; h; i; j; k; l] = true ->
  strip_non_hex (toUpperCase (colon_pairs a b c d e f g h i j k l))
  = hex12 a b c d e f g h i j k l.
Proof.
  intros Hall. simpl in Hall.
  repeat (apply andb_prop in Hall; destruct Hall as [? Hall]).
  rewrite toUpperCase_ascii.
  - unfold colon_pairs, hex12, strip_non_hex. cbn [string_of_list_ascii string_map].
    repeat match goal with
           | Hc : is_hex_upper ?x = true |- _ => rewrite (hex_char_upper x Hc)
           end.
    change (ascii_upper ":") with ":"%char.
    repeat first
      [ rewrite string_filter_keep by assumption
      | change (string_filter is_hex_upper (String ":" ?rest))
          with (string_filter is_hex_upper rest) ].
    reflexivity.
  - unfold colon_pairs. cbn [string_of_list_ascii string_forallb].
    repeat match goal with
           | Hc : is_hex_upper ?x = true |- _ => rewrite (hex_char_ascii x Hc)
           end.
    reflexivity.
Qed.

(** C3. For every input string whose upper-case form keeps exactly 12
    characters when everything outside [0-9A-F] is removed, the
    normalizer returns those 12 hex digits as 6 pairs joined by [:];
    ['aa-bb-cc-11-22-33'] maps to ['AA:BB:CC:11:22:33']. *)
Theorem normalizeMac_twelve_hex_digits :
  (∀ s : string,
     String.length (strip_non_hex (toUpperCase s)) = 12 ->
     exists a b c d e f g h i j k l : ascii,
       strip_non_hex (toUpperCase s) = hex12 a b c d e f g h i j k l
       ∧ forallb is_hex_upper [a; b; c; d; e; f; g; h; i; j; k; l] = true
       ∧ normalizeMac (VStr s) = Ok (VStr (colon_pairs a b c d e f g h i j k l)))
  ∧ normalizeMac (VStr "aa-bb-cc-11-22-33") = Ok (VStr "AA:BB:CC:11:22:33").
Proof.
  split; [apply normalizeMac_canonical|].
  assert (Hup : toUpperCase "aa-bb-cc-11-22-33" = "AA-BB-CC-11-22-33")
    by (by rewrite toUpperCase_ascii).
  apply (normalizeMac_hex12 (VStr "aa-bb-cc-11-22-33")
           "A" "A" "B" "B" "C" "C" "1" "1" "2" "2" "3" "3"); [reflexivity|].
  simpl ToString. rewrite Hup. reflexivity.
Qed.

(** C8. For every string whose upper-case, hex-only form has exactly 12
    characters, normalizing twice gives what normalizing once gives. *)
Theorem normalizeMac_idempotent (x : string) :
  String.length (strip_non_hex (toUpperCase x)) = 12 ->
  exists once : value,
    normalizeMac (VStr x) = Ok once ∧ normalizeMac once = Ok once.
Proof.
  intros Hlen.
  destruct (normalizeMac_canonical x Hlen)
    as (a & b & c & d & e & f & g & h & i & j & k & l & _ & Hall & Hnorm).
  exists (VStr (colon_pairs a b c d e f g h i j k l)). split; [done|].
  apply normalizeMac_hex12; [reflexivity|].
  simpl ToString. by apply colon_pairs_fixed.
Qed.
End NormalizeMacProofs.


(** ** The start of [sendData]: the MAC of the caller's object *)

Section SendProofs.
Context `{Host}.

Lemma normalizeMac_truthy mac n :
  truthy mac = true -> normalizeMac mac = Ok n -> truthy n = true.
Proof.
  intros Ht Hn.
  destruct (Nat.eq_dec (String.length (strip_non_hex (toUpperCase (ToString mac)))) 12)
    as [Hlen|Hlen].
  - destruct (string_length_12 _ Hlen)
      as (a & b & c & d & e & f & g & h & i & j & k & l & Hhex).
    rewrite (normalizeMac_hex12 mac _ _ _ _ _ _ _ _ _ _ _ _ Ht Hhex) in Hn.
    by injection Hn as <-.
  - rewrite (normalizeMac_other_length mac Hlen) in Hn. by injection Hn as <-.
Qed.

Lemma load_ref st l props key :
  st !! l = Some props -> load st (Ref l) key = Ok (field (VObj props) key).
Proof. intros Hl; unfold load. by rewrite Hl. Qed.

Lemma normalize_deviceMAC_supplied st l props mac n :
  st !! l = Some props ->
  props !! "deviceMAC" = Some mac ->
  truthy mac = true ->
  normalizeMac mac = Ok n ->
  normalize_deviceMAC st (Ref l) = (<[l := <["deviceMAC" := n]> props]> st, Ok tt).
Proof.
  intros Hl Hmac Ht Hn. unfold normalize_deviceMAC; simpl truthy_param; cbv iota.
  rewrite (load_ref _ _ _ _ Hl). unfold field. rewrite Hmac; simpl default.
  rewrite Ht, Hn. unfold assign. by rewrite Hl.
Qed.

Lemma normalize_deviceMAC_not_supplied st l props :
  st !! l = Some props ->
  truthy (field (VObj props) "deviceMAC") = false ->
  normalize_deviceMAC st (Ref l) = (st, Ok tt).
Proof.
  intros Hl Hf. unfold normalize_deviceMAC; simpl truthy_param; cbv iota.
  rewrite (load_ref _ _ _ _ Hl). by rewrite Hf.
Qed.

(** The board metadata of the payload, read from the object [props]. *)
Lemma payload_ref st l props sensors precision sensorData :
  st !! l = Some props ->
  array_map (sensor_entry precision) sensors = Ok sensorData ->
  payload st sensors (Ref l) precision
  = Ok (obj [
      ("sensors", obj [("sensorData", sensorData)]);
      ("boardInfo", obj [
        ("firmwareVersion", or_else (field (VObj props) "firmwareVersion") (VStr "0.0"));
        ("architecture", or_else (field (VObj props) "architecture") (VStr "unknown"));
        ("deviceMAC", or_else (field (VObj props) "deviceMAC") (VStr "00:00:00:00:00:00"));
        ("statusOTA", VBool (truthy (field (VObj props) "statusOTA")));
        ("signalStrength",
         or_else (field (VObj props) "signalStrength") (VNum PrimFloat.zero))])]).
Proof.
  intros Hl Hs. unfold payload. rewrite Hs, bind_Ok.
  by rewrite !(load_ref _ _ _ _ Hl), !bind_Ok.
Qed.

Lemma sensor_entry_object precision (s : gmap string value) d :
  toFixed (Number (field (VObj s) "value")) precision = Ok d ->
  sensor_entry precision (VObj s)
  = Ok (obj [("info", field (VObj s) "info"); ("data", VStr d)]).
Proof.
  intros Hd. unfold sensor_entry, get. rewrite !bind_Ok.
  unfold field in Hd. by rewrite Hd, bind_Ok.
Qed.

(** [sensors.map(...)] on an array of objects, when [toFixed] accepts the
    precision. *)
Lemma array_map_sensors precision (sensors : list (gmap string value)) :
  (∀ x, exists d, toFixed x precision = Ok d) ->
  exists entries,
    array_map (sensor_entry precision) (VArr (VObj <$> sensors)) = Ok (VArr entries)
    ∧ Forall2 (fun s e =>
                 exists d, toFixed (Number (field (VObj s) "value")) precision = Ok d
                           ∧ e = obj [("info", field (VObj s) "info"); ("data", VStr d)])
        sensors entries.
Proof.
  intros Hfix. unfold array_map.
  induction sensors as [|s rest (entries & Hmap & Hall)].
  - exists []. by split; [|constructor].
  - destruct (Hfix (Number (field (VObj s) "value"))) as (d & Hd).
    destruct (map_result (sensor_entry precision) (VObj <$> rest)) as [ys|] eqn:Hrest;
      [|discriminate Hmap].
    injection Hmap as <-.
    exists (obj [("info", field (VObj s) "info"); ("data", VStr d)] :: ys).
    rewrite fmap_cons. simpl map_result.
    rewrite (sensor_entry_object _ _ _ Hd), bind_Ok, Hrest, !bind_Ok.
    split; [reflexivity|]. constructor; [by exists d|done].
Qed.
End SendProofs.

Section SendDataShape.
Context `{Host}.

Lemma node_sendData_ref c st sendKey boardKey sensors l precision st' :
  normalize_deviceMAC st (Ref l) = (st', Ok tt) ->
  NodeHelper.sendData c st sendKey boardKey sensors (Ref l) precision
  = match payload st' sensors (Ref l) (bind_precision precision) with
    | Throw e => (st', Throw e)
    | Ok p =>
        (st',
         transmit
           {| req_url :=
                url_or (NodeHelper.overrideSendUrl c) NodeHelper.DEFAULT_SEND_URL
                +:+ "sendKey=" +:+ encodeURIComponent sendKey
                +:+ "&boardKey=" +:+ encodeURIComponent boardKey;
              req_method := "POST";
              req_headers := [("Content-Type", "application/json")];
              req_body := Some (JSON_stringify p);
              req_agent :=
                NodeHelper.agent_for c
                  (url_or (NodeHelper.overrideSendUrl c) NodeHelper.DEFAULT_SEND_URL
                   +:+ "sendKey=" +:+ encodeURIComponent sendKey
                   +:+ "&boardKey=" +:+ encodeURIComponent boardKey) |}
           NodeHelper.FETCH_HINT)
    end.
Proof.
  intros Hn. unfold NodeHelper.sendData. simpl bind_boardInfo. cbv beta iota zeta.
  rewrite Hn. reflexivity.
Qed.

Lemma proxy_sendData_ref c st sendKey boardKey sensors l precision st' :
  normalize_deviceMAC st (Ref l) = (st', Ok tt) ->
  ProxyHelper.sendData c st sendKey boardKey sensors (Ref l) precision
  = match payload st' sensors (Ref l) (bind_precision precision) with
    | Throw e => (st', Throw e)
    | Ok p =>
        (st',
         transmit
           {| req_url :=
                match url_or_null (ProxyHelper.proxyBase c) with
                | Some proxyBase => ProxyHelper.strip_trailing_slash proxyBase +:+ "/send"
                | None =>
                    ProxyHelper.DEFAULT_SEND_URL +:+ "sendKey=" +:+ encodeURIComponent sendKey
                    +:+ "&boardKey=" +:+ encodeURIComponent boardKey
                end;
              req_method := "POST";
              req_headers := [("Content-Type", "application/json")];
              req_body :=
                Some (JSON_stringify
                        match url_or_null (ProxyHelper.proxyBase c) with
                        | Some _ =>
                            ProxyHelper.relayed st' sendKey boardKey sensors (Ref l)
                        | None => p
                        end);
              req_agent := None |}
           ProxyHelper.SEND_HINT)
    end.
Proof.
  intros Hn. unfold ProxyHelper.sendData. simpl bind_boardInfo. cbv beta iota zeta.
  rewrite Hn. destruct (payload st' sensors (Ref l) (bind_precision precision)); [|done].
  by destruct (url_or_null (ProxyHelper.proxyBase c)).
Qed.

Lemma written_store st l props n :
  st !! l = Some props ->
  only_deviceMAC_written st (<[l := <["deviceMAC" := n]> props]> st) l props n.
Proof.
  intros Hl. exists (<["deviceMAC" := n]> props).
  split; [by rewrite lookup_insert_eq|].
  split; [by rewrite lookup_insert_eq|].
  split; [intros key Hkey; by rewrite lookup_insert_ne|].
  intros l' Hl'. by rewrite lookup_insert_ne.
Qed.

Lemma payload_deviceMAC st l props sensors precision p n :
  st !! l = Some props ->
  props !! "deviceMAC" = Some n ->
  truthy n = true ->
  payload st sensors (Ref l) precision = Ok p ->
  field (field p "boardInfo") "deviceMAC" = n.
Proof.
  intros Hl Hmac Ht Hp.
  destruct (array_map (sensor_entry precision) sensors) as [sensorData|e] eqn:Hs.
  - rewrite (payload_ref _ _ _ _ _ _ Hl Hs) in Hp. injection Hp as <-.
    change (or_else (field (VObj props) "deviceMAC") (VStr "00:00:00:00:00:00") = n).
    unfold field. rewrite Hmac. simpl default. unfold or_else. by rewrite Ht.
  - unfold payload in Hp. rewrite Hs in Hp. discriminate Hp.
Qed.

Lemma relayed_deviceMAC st l props sendKey boardKey sensors n :
  st !! l = Some props ->
  props !! "deviceMAC" = Some n ->
  field (field (ProxyHelper.relayed st sendKey boardKey sensors (Ref l)) "boardInfo")
    "deviceMAC" = n.
Proof.
  intros Hl Hmac. unfold ProxyHelper.relayed. rewrite Hl. simpl default.
  change (field (VObj props) "deviceMAC" = n). unfold field. by rewrite Hmac.
Qed.
End SendDataShape.

(** ** What [sendData] does to the caller's object and puts in the payload *)

Section SendDataClaims.
Context `{Host}.

Lemma normalize_deviceMAC_ref st l props :
  st !! l = Some props ->
  exists st' props',
    normalize_deviceMAC st (Ref l) = (st', Ok tt)
    ∧ st' !! l = Some props'
    ∧ (∀ key : string, key ≠ "deviceMAC" -> props' !! key = props !! key)
    ∧ (props !! "deviceMAC" = None -> props' !! "deviceMAC" = None).
Proof.
  intros Hl.
  destruct (truthy (field (VObj props) "deviceMAC")) eqn:Ht.
  - destruct (props !! "deviceMAC") as [mac|] eqn:Hmac;
      [|unfold field in Ht; rewrite Hmac in Ht; discriminate Ht].
    assert (Hmac' : truthy mac = true) by (unfold field in Ht; by rewrite Hmac in Ht).
    destruct (normalizeMac_returns mac) as (n & Hn).
    exists (<[l := <["deviceMAC" := n]> props]> st), (<["deviceMAC" := n]> props).
    split; [by eapply normalize_deviceMAC_supplied|].
    split; [by rewrite lookup_insert_eq|].
    split; [intros key Hkey; by rewrite lookup_insert_ne|discriminate].
  - exists st, props.
    split; [by apply (normalize_deviceMAC_not_supplied _ _ props)|done].
Qed.

(** C9. [sendData] writes to the object passed as [boardInfo]: when its
    [deviceMAC] is truthy the field is replaced by the normalized MAC
    before the payload is built, and every other field of the caller's
    object stays as it was. *)
Theorem sendData_normalizes_boardInfo_in_place
    (cn : NodeHelper.config) (cp : ProxyHelper.config)
    (st : store) (l : loc) (props : gmap string value) (mac : value)
    (sendKey boardKey : string) (sensors precision : value) :
  st !! l = Some props ->
  props !! "deviceMAC" = Some mac ->
  truthy mac = true ->
  exists (n : value) (st' : store),
    normalizeMac mac = Ok n
    ∧ only_deviceMAC_written st st' l props n
    ∧ fst (NodeHelper.sendData cn st sendKey boardKey sensors (Ref l) precision) = st'
    ∧ fst (ProxyHelper.sendData cp st sendKey boardKey sensors (Ref l) precision) = st'
    ∧ (∀ p : value,
         payload st' sensors (Ref l) (bind_precision precision) = Ok p ->
         field (field p "boardInfo") "deviceMAC" = n
         ∧ (exists req,
              NodeHelper.sendData cn st sendKey boardKey sensors (Ref l) precision
              = (st', transmit req NodeHelper.FETCH_HINT)
              ∧ req_body req = Some (JSON_stringify p))
         ∧ (exists req,
              ProxyHelper.sendData cp st sendKey boardKey sensors (Ref l) precision
              = (st', transmit req ProxyHelper.SEND_HINT))).
Proof.
  intros Hl Hmac Ht.
  destruct (normalizeMac_returns mac) as (n & Hn).
  pose proof (normalize_deviceMAC_supplied _ _ _ _ _ Hl Hmac Ht Hn) as Hstep.
  exists n, (<[l := <["deviceMAC" := n]> props]> st).
  rewrite (node_sendData_ref _ _ _ _ _ _ _ _ Hstep).
  rewrite (proxy_sendData_ref _ _ _ _ _ _ _ _ Hstep).
  split; [done|]. split; [by apply written_store|].
  split; [by destruct (payload _ _ _ _)|].
  split; [by destruct (payload _ _ _ _)|].
  intros p Hp. rewrite Hp. split; [|split; by eexists].
  apply (payload_deviceMAC (<[l := <["deviceMAC" := n]> props]> st) l
           (<["deviceMAC" := n]> props) sensors (bind_precision precision));
    [apply lookup_insert_eq|apply lookup_insert_eq| |done].
  by apply (normalizeMac_truthy mac).
Qed.

(** C4, as the code has it.  In [sendData] of both helpers a truthy
    [deviceMAC] of the caller's object goes through the normalizer before
    it is put in the document that is sent, and an input whose hex-only
    form does not have 12 characters is kept as it is.  [submitSensorData]
    has no normalizer: it puts [macAddress] in the document unchanged. *)
Theorem sendData_normalizes_supplied_mac
    (cn : NodeHelper.config) (cp : ProxyHelper.config)
    (st : store) (l : loc) (props : gmap string value) (mac : value)
    (sendKey boardKey : string) (sensors : list (gmap string value)) (precision : value) :
  st !! l = Some props ->
  props !! "deviceMAC" = Some mac ->
  truthy mac = true ->
  (∀ x, exists d, toFixed x (bind_precision precision) = Ok d) ->
  (exists (n : value) (st' : store) (sent relayed : value) (req req' : request),
     normalizeMac mac = Ok n
     ∧ (String.length (strip_non_hex (toUpperCase (ToString mac))) ≠ 12 -> n = mac)
     ∧ NodeHelper.sendData cn st sendKey boardKey (VArr (VObj <$> sensors)) (Ref l) precision
       = (st', transmit req NodeHelper.FETCH_HINT)
     ∧ req_body req = Some (JSON_stringify sent)
     ∧ field (field sent "boardInfo") "deviceMAC" = n
     ∧ ProxyHelper.sendData cp st sendKey boardKey (VArr (VObj <$> sensors)) (Ref l) precision
       = (st', transmit req' ProxyHelper.SEND_HINT)
     ∧ req_body req' = Some (JSON_stringify relayed)
     ∧ field (field relayed "boardInfo") "deviceMAC" = n)
  ∧ (∀ sensorArray macAddress architecture firmwareVersion statusOTA signalStrength,
       field (field (ConsentiumThings.dataPayload sensorArray macAddress architecture
                       firmwareVersion statusOTA signalStrength) "boardInfo") "deviceMAC"
       = macAddress).
Proof.
  intros Hl Hmac Ht Hfix. split.
  - destruct (normalizeMac_returns mac) as (n & Hn).
    pose proof (normalize_deviceMAC_supplied _ _ _ _ _ Hl Hmac Ht Hn) as Hstep.
    set (st' := <[l := <["deviceMAC" := n]> props]> st) in *.
    assert (Hl' : st' !! l = Some (<["deviceMAC" := n]> props))
      by apply lookup_insert_eq.
    destruct (array_map_sensors _ sensors Hfix) as (entries & Hentries & _).
    pose proof (payload_ref _ _ _ _ _ _ Hl' Hentries) as Hp.
    pose proof (normalizeMac_truthy _ _ Ht Hn) as Hn'.
    eexists n, st', _, _, _, _.
    rewrite (node_sendData_ref _ _ _ _ _ _ _ _ Hstep), Hp.
    rewrite (proxy_sendData_ref _ _ _ _ _ _ _ _ Hstep), Hp.
    split; [done|].
    split; [intros Hlen; rewrite (normalizeMac_other_length mac Hlen) in Hn;
            by injection Hn|].
    split; [reflexivity|]. split; [reflexivity|].
    split; [by apply (payload_deviceMAC _ _ _ _ _ _ _ Hl' (lookup_insert_eq _ _ _) Hn' Hp)|].
    split; [reflexivity|]. split; [reflexivity|].
    destruct (url_or_null (ProxyHelper.proxyBase cp)).
    + apply (relayed_deviceMAC _ _ _ _ _ _ _ Hl' (lookup_insert_eq _ _ _)).
    + apply (payload_deviceMAC _ _ _ _ _ _ _ Hl' (lookup_insert_eq _ _ _) Hn' Hp).
  - intros. unfold ConsentiumThings.dataPayload. by destruct signalStrength.
Qed.

(** C7, as the code has it.  In [sendData] of both helpers, for an array
    of sensor objects and a [boardInfo] object, each sensor's value is in
    the payload as the string [Number(value).toFixed(precision)], with a
    precision of 4 when none is given, and every absent field of the
    board metadata has its default: ["0.0"], ["unknown"],
    ["00:00:00:00:00:00"], [false] and [0].  [submitSensorData] formats
    nothing and has no defaults for them: the sensor array and the fields
    go into its document as they were passed. *)
Theorem sendData_formats_values_and_fills_defaults
    (cn : NodeHelper.config) (cp : ProxyHelper.config)
    (st : store) (l : loc) (props : gmap string value)
    (sendKey boardKey : string) (sensors : list (gmap string value)) (precision : value) :
  st !! l = Some props ->
  (∀ x, exists d, toFixed x (bind_precision precision) = Ok d) ->
  (exists (st' : store) (entries : list value) (p : value) (req req' : request),
     payload st' (VArr (VObj <$> sensors)) (Ref l) (bind_precision precision) = Ok p
     ∧ NodeHelper.sendData cn st sendKey boardKey (VArr (VObj <$> sensors)) (Ref l) precision
       = (st', transmit req NodeHelper.FETCH_HINT)
     ∧ req_body req = Some (JSON_stringify p)
     ∧ ProxyHelper.sendData cp st sendKey boardKey (VArr (VObj <$> sensors)) (Ref l) precision
       = (st', transmit req' ProxyHelper.SEND_HINT)
     ∧ (url_or_null (ProxyHelper.proxyBase cp) = None ->
        req_body req' = Some (JSON_stringify p))
     ∧ field (field p "sensors") "sensorData" = VArr entries
     ∧ Forall2 (fun s e =>
                  exists d : string,
                    toFixed (Number (field (VObj s) "value")) (bind_precision precision)
                    = Ok d
                    ∧ e = obj [("info", field (VObj s) "info"); ("data", VStr d)])
         sensors entries
     ∧ (props !! "firmwareVersion" = None ->
        field (field p "boardInfo") "firmwareVersion" = VStr "0.0")
     ∧ (props !! "architecture" = None ->
        field (field p "boardInfo") "architecture" = VStr "unknown")
     ∧ (props !! "deviceMAC" = None ->
        field (field p "boardInfo") "deviceMAC" = VStr "00:00:00:00:00:00")
     ∧ (props !! "statusOTA" = None ->
        field (field p "boardInfo") "statusOTA" = VBool false)
     ∧ (props !! "signalStrength" = None ->
        field (field p "boardInfo") "signalStrength" = VNum 0%float))
  ∧ bind_precision VUndefined = VNum 4%float
  ∧ (∀ sensorArray macAddress architecture firmwareVersion statusOTA signalStrength,
       let document := ConsentiumThings.dataPayload sensorArray macAddress architecture
                         firmwareVersion statusOTA signalStrength in
       field (field document "sensors") "sensorData" = sensorArray
       ∧ field (field document "boardInfo") "firmwareVersion" = firmwareVersion
       ∧ field (field document "boardInfo") "architecture" = architecture
       ∧ field (field document "boardInfo") "statusOTA" = statusOTA).
Proof.
  intros Hl Hfix. split; [|split; [reflexivity|]].
  - destruct (normalize_deviceMAC_ref _ _ _ Hl)
      as (st' & props' & Hstep & Hl' & Hsame & Hmac).
    destruct (array_map_sensors _ sensors Hfix) as (entries & Hentries & Hall).
    pose proof (payload_ref _ _ _ _ _ _ Hl' Hentries) as Hp.
    eexists st', entries, _, _, _.
    rewrite (node_sendData_ref _ _ _ _ _ _ _ _ Hstep), Hp.
    rewrite (proxy_sendData_ref _ _ _ _ _ _ _ _ Hstep), Hp.
    split; [reflexivity|]. split; [reflexivity|]. split; [reflexivity|].
    split; [reflexivity|].
    split; [by intros ->|].
    split; [reflexivity|]. split; [exact Hall|].
    split; [|split; [|split; [|split]]]; intros Habsent.
    + change (or_else (field (VObj props') "firmwareVersion") (VStr "0.0") = VStr "0.0").
      unfold field. by rewrite Hsame, Habsent.
    + change (or_else (field (VObj props') "architecture") (VStr "unknown")
              = VStr "unknown").
      unfold field. by rewrite Hsame, Habsent.
    + change (or_else (field (VObj props') "deviceMAC") (VStr "00:00:00:00:00:00")
              = VStr "00:00:00:00:00:00").
      unfold field. by rewrite (Hmac Habsent).
    + change (VBool (truthy (field (VObj props') "statusOTA")) = VBool false).
      unfold field. by rewrite Hsame, Habsent.
    + change (or_else (field (VObj props') "signalStrength") (VNum PrimFloat.zero)
              = VNum 0%float).
      unfold field. by rewrite Hsame, Habsent.
  - intros. unfold document, ConsentiumThings.dataPayload.
    by destruct signalStrength.
Qed.
End SendDataClaims.

(** ** Failures of the transport and of the API *)


Section TransportClaims.
Context `{Host}.






Lemma hint_failed_to_fetch `{!HostLaws H} text :
  hint text (mkError (VStr "Failed to fetch")) = VStr text.
Proof.
  unfold hint. cbn [message].
  rewrite (toLowerCase_ascii "Failed to fetch") by reflexivity. reflexivity.
Qed.

Lemma hint_not_a_string text (m : value) :
  (∀ s, m ≠ VStr s) -> hint text (mkError m) = m.
Proof. intros Hm. unfold hint. cbn [message]. destruct m; try done. by destruct (Hm s). Qed.

(** C10. When the body of the response of a retrieval does not parse as
    JSON, [receiveData] returns [{ok, status, body: text}] with the raw
    text, an object that has no [feeds] field at all. *)
Theorem receiveData_unparseable_body_omits_feeds
    (cn : NodeHelper.config) (cp : ProxyHelper.config)
    (receiveKey boardKey : string) (recents : value) (res : response) (text : string) :
  (∀ req, fetch req = Resolved res) ->
  res_text res = Ok text ->
  JSON_parse text = None ->
  exists props : gmap string value,
    NodeHelper.receiveData cn receiveKey boardKey recents = Ok (VObj props)
    ∧ ProxyHelper.receiveData cp receiveKey boardKey recents = Ok (VObj props)
    ∧ props = list_to_map [("ok", VBool (res_ok res)); ("status", VNum (res_status res));
                           ("body", VStr text)]
    ∧ props !! "feeds" = None
    ∧ dom props = {[ "ok"; "status"; "body" ]}.
Proof.
  intros Hf Ht Hj.
  exists (list_to_map [("ok", VBool (res_ok res)); ("status", VNum (res_status res));
                       ("body", VStr text)]).
  unfold NodeHelper.receiveData, ProxyHelper.receiveData, await_fetch.
  rewrite !Hf, !bind_Ok, Ht, !bind_Ok.
  unfold receive_result, parse_or_null. rewrite Hj. simpl truthy. cbv iota.
  split; [reflexivity|]. split; [reflexivity|]. split; [reflexivity|].
  split; [reflexivity|].
  simpl list_to_map. rewrite !dom_insert_L, dom_empty_L. set_solver.
Qed.
End TransportClaims.

Section FailureClaims.
Context `{Host}.



Lemma receiveData_parsed res text json feeds :
  res_text res = Ok text ->
  JSON_parse text = Some json ->
  truthy json = true ->
  flatten json = Ok feeds ->
  (text' ← res_text res; receive_result res text')
  = Ok (obj [("ok", VBool (res_ok res)); ("status", VNum (res_status res));
             ("feeds", VArr feeds); ("body", json)]).
Proof.
  intros Ht Hj Htr Hfl. rewrite Ht, bind_Ok.
  unfold receive_result, parse_or_null. rewrite Hj, Htr. simpl negb. cbv iota.
  by rewrite Hfl.
Qed.


End FailureClaims.

(** ** The flattener inside [receiveData] *)

Lemma receiveData_returns_flattened_feeds `{Host}
    (cn : NodeHelper.config) (cp : ProxyHelper.config) (receiveKey boardKey : string)
    (recents : value) (res : response) (text : string)
    (board : gmap string value) (feeds : list (gmap string value)) :
  (∀ req, fetch req = Resolved res) ->
  res_text res = Ok text ->
  JSON_parse text = Some (wide_feed_document board feeds) ->
  NodeHelper.receiveData cn receiveKey boardKey recents
  = Ok (obj [("ok", VBool (res_ok res)); ("status", VNum (res_status res));
             ("feeds", VArr (flatten_spec board feeds));
             ("body", wide_feed_document board feeds)])
  ∧ ProxyHelper.receiveData cp receiveKey boardKey recents
    = NodeHelper.receiveData cn receiveKey boardKey recents.
Proof.
  intros Hf Ht Hj.
  unfold NodeHelper.receiveData, ProxyHelper.receiveData, await_fetch.
  rewrite !Hf, !bind_Ok.
  rewrite !(receiveData_parsed res text _ _ Ht Hj eq_refl (flatten_document board feeds)).
  by split.
Qed.

(** * Concrete runs *)

(** The normalizer on the specification's inputs. *)
Lemma normalizeMac_twelve_hex_digits_run :
  (exists a b c d e f g h i j k l : ascii,
     strip_non_hex (toUpperCase (Host := mock_host offline no_json) "dd:da:0c:20:e1:41")
     = hex12 a b c d e f g h i j k l
     ∧ forallb is_hex_upper [a; b; c; d; e; f; g; h; i; j; k; l] = true
     ∧ normalizeMac (H := mock_host offline no_json) (VStr "dd:da:0c:20:e1:41")
       = Ok (VStr (colon_pairs a b c d e f g h i j k l)))
  ∧ normalizeMac (H := mock_host offline no_json) (VStr "aa-bb-cc-11-22-33")
    = Ok (VStr "AA:BB:CC:11:22:33").
Proof.
  pose proof (@normalizeMac_twelve_hex_digits (mock_host offline no_json)
                (mock_host_laws offline no_json)) as [Hall Hexample].
  split; [|exact Hexample].
  apply (Hall "dd:da:0c:20:e1:41"). reflexivity.
Defined.

Lemma normalizeMac_idempotent_run :
  exists once : value,
    normalizeMac (H := mock_host offline no_json) (VStr "aa-bb-cc-11-22-33") = Ok once
    ∧ normalizeMac (H := mock_host offline no_json) once = Ok once.
Proof.
  apply (@normalizeMac_idempotent (mock_host offline no_json)
           (mock_host_laws offline no_json) "aa-bb-cc-11-22-33").
  reflexivity.
Defined.


(** [sendData] on the caller's object [board0] at location 1. *)
Lemma sendData_normalizes_boardInfo_in_place_run :
  exists (n : value) (st' : store),
    normalizeMac (H := mock_host offline no_json) (VStr "aa-bb-cc-11-22-33") = Ok n
    ∧ only_deviceMAC_written store0 st' 1%positive board0 n
    ∧ fst (NodeHelper.sendData (H := mock_host offline no_json) NodeHelper.initial store0
             "sendKey" "boardKey" (VArr (VObj <$> sensors0)) (Ref 1%positive) VUndefined)
      = st'.
Proof.
  destruct (sendData_normalizes_boardInfo_in_place (H := mock_host offline no_json)
              NodeHelper.initial ProxyHelper.initial store0 1%positive board0
              (VStr "aa-bb-cc-11-22-33") "sendKey" "boardKey"
              (VArr (VObj <$> sensors0)) VUndefined)
    as (n & st' & Hn & Hframe & Hnode & _).
  - vm_compute. reflexivity.
  - vm_compute. reflexivity.
  - reflexivity.
  - by exists n, st'.
Defined.

Lemma sendData_normalizes_supplied_mac_run :
  exists (n : value) (st' : store) (sent : value) (req : request),
    normalizeMac (H := mock_host offline no_json) (VStr "aa-bb-cc-11-22-33") = Ok n
    ∧ NodeHelper.sendData (H := mock_host offline no_json) NodeHelper.initial store0
        "sendKey" "boardKey" (VArr (VObj <$> sensors0)) (Ref 1%positive) VUndefined
      = (st', transmit (H := mock_host offline no_json) req NodeHelper.FETCH_HINT)
    ∧ req_body req = Some (JSON_stringify (Host := mock_host offline no_json) sent)
    ∧ field (field sent "boardInfo") "deviceMAC" = n.
Proof.
  destruct (sendData_normalizes_supplied_mac (H := mock_host offline no_json)
              NodeHelper.initial ProxyHelper.initial store0 1%positive board0
              (VStr "aa-bb-cc-11-22-33") "sendKey" "boardKey" sensors0 VUndefined)
    as ((n & st' & sent & relayed & req & req' & Hn & _ & Hsend & Hbody & Hmac & _) & _).
  - vm_compute. reflexivity.
  - vm_compute. reflexivity.
  - reflexivity.
  - intros x. apply mock_toFixed_returns.
  - by exists n, st', sent, req.
Defined.

Lemma sendData_formats_values_and_fills_defaults_run :
  exists (st' : store) (entries : list value) (p : value),
    payload (H := mock_host offline no_json) st' (VArr (VObj <$> sensors0)) (Ref 1%positive)
      (VNum 4%float) = Ok p
    ∧ field (field p "sensors") "sensorData" = VArr entries
    ∧ field (field p "boardInfo") "firmwareVersion" = VStr "0.0"
    ∧ field (field p "boardInfo") "signalStrength" = VNum 0%float.
Proof.
  destruct (sendData_formats_values_and_fills_defaults (H := mock_host offline no_json)
              NodeHelper.initial ProxyHelper.initial store0 1%positive board0
              "sendKey" "boardKey" sensors0 VUndefined)
    as ((st' & entries & p & req & req' & Hp & _ & _ & _ & _ & Hdata & _
         & Hfw & _ & _ & _ & Hsig) & _).
  - vm_compute. reflexivity.
  - intros x. apply mock_toFixed_returns.
  - exists st', entries, p. split; [exact Hp|]. split; [exact Hdata|].
    split; [apply Hfw|apply Hsig]; vm_compute; reflexivity.
Defined.


Lemma receiveData_unparseable_body_omits_feeds_run :
  exists props : gmap string value,
    NodeHelper.receiveData (H := mock_host html_page no_json) NodeHelper.initial
      "receiveKey" "boardKey" VUndefined = Ok (VObj props)
    ∧ props !! "body" = Some (VStr "<html></html>")
    ∧ props !! "feeds" = None.
Proof.
  destruct (receiveData_unparseable_body_omits_feeds (H := mock_host html_page no_json)
              NodeHelper.initial ProxyHelper.initial "receiveKey" "boardKey" VUndefined
              {| res_ok := true; res_status := 200%float; res_statusText := "OK";
                 res_text := Ok "<html></html>" |} "<html></html>")
    as (props & Hnode & _ & Hprops & Hfeeds & _).
  - reflexivity.
  - reflexivity.
  - reflexivity.
  - exists props. split; [exact Hnode|]. split; [|exact Hfeeds].
    rewrite Hprops. vm_compute. reflexivity.
Defined.


(** The plain API client puts the MAC in its document as it was passed:
    the normalizer would have changed it.  In [sendData] an empty
    [deviceMAC] is not kept either: the payload has the default. *)
Lemma submitSensorData_does_not_normalize :
  field (field (ConsentiumThings.dataPayload (VArr []) (VStr "aa-bb-cc-11-22-33")
                  (VStr "ESP32") (VStr "1.0.1") (VBool false) VNull) "boardInfo") "deviceMAC"
  = VStr "aa-bb-cc-11-22-33"
  ∧ normalizeMac (H := mock_host offline no_json) (VStr "aa-bb-cc-11-22-33")
    = Ok (VStr "AA:BB:CC:11:22:33")
  ∧ VStr "aa-bb-cc-11-22-33" ≠ VStr "AA:BB:CC:11:22:33"
  ∧ (exists p : value,
       payload (H := mock_host offline no_json) {[ 1%positive := {[ "deviceMAC" := VStr "" ]} ]}
         (VArr []) (Ref 1%positive) (VNum 4%float) = Ok p
       ∧ field (field p "boardInfo") "deviceMAC" = VStr "00:00:00:00:00:00").
Proof.
  split; [|split; [|split]]; [vm_compute; reflexivity..|discriminate|].
  eexists. split; vm_compute; reflexivity.
Qed.

(** The plain API client neither formats the sensor values nor fills in the
    defaults: with no firmware version, architecture and signal strength
    passed, its document has none. *)
Lemma submitSensorData_no_format_no_defaults :
  field (field (ConsentiumThings.dataPayload
                  (VArr [obj [("info", VStr "Temperature"); ("value", VNum 25%float)]])
                  VUndefined VUndefined VUndefined (VBool false) VNull) "sensors") "sensorData"
  = VArr [obj [("info", VStr "Temperature"); ("value", VNum 25%float)]]
  ∧ field (field (ConsentiumThings.dataPayload
                    (VArr [obj [("info", VStr "Temperature"); ("value", VNum 25%float)]])
                    VUndefined VUndefined VUndefined (VBool false) VNull) "boardInfo")
      "firmwareVersion" = VUndefined
  ∧ field (field (ConsentiumThings.dataPayload
                    (VArr [obj [("info", VStr "Temperature"); ("value", VNum 25%float)]])
                    VUndefined VUndefined VUndefined (VBool false) VNull) "boardInfo")
      "deviceMAC" = VUndefined
  ∧ field (field (ConsentiumThings.dataPayload
                    (VArr [obj [("info", VStr "Temperature"); ("value", VNum 25%float)]])
                    VUndefined VUndefined VUndefined (VBool false) VNull) "boardInfo")
      "signalStrength" = VUndefined
  ∧ VUndefined ≠ VStr "0.0"
  ∧ VUndefined ≠ VStr "00:00:00:00:00:00"
  ∧ VUndefined ≠ VNum 0%float.
Proof. repeat split; try discriminate; vm_compute; reflexivity. Qed.

(** A [boardInfo] of [null] passes the guard of the MAC normalization and
    makes the payload literal throw, outside the [try]. *)
Example sendData_null_boardInfo :
  exists e : error,
    NodeHelper.sendData (H := mock_host offline no_json) NodeHelper.initial store0
      "sendKey" "boardKey" (VArr []) (Val VNull) VUndefined
    = (store0, Throw e).
Proof. eexists. vm_compute. reflexivity. Qed.

(** A retrieval through the Node helper, with the example document of the
    specification as the body of the response. *)
Example receiveData_example :
  NodeHelper.receiveData
    (H := mock_host html_page
            (fun _ => Some (wide_feed_document
                              (list_to_map [("info1", VStr "Temp"); ("info3", VStr "Light")])
                              [list_to_map [("value1", VNum 10%float);
                                            ("value2", VNum 99%float);
                                            ("value3", VNum 20%float)]])))
    NodeHelper.initial "receiveKey" "boardKey" VUndefined
  = Ok (obj [("ok", VBool true); ("status", VNum 200%float);
             ("feeds", VArr [obj [("info", VStr "Temp"); ("value", VNum 10%float)];
                             obj [("info", VStr "Light"); ("value", VNum 20%float)]]);
             ("body", wide_feed_document
                        (list_to_map [("info1", VStr "Temp"); ("info3", VStr "Light")])
                        [list_to_map [("value1", VNum 10%float); ("value2", VNum 99%float);
                                      ("value3", VNum 20%float)]])]).
Proof. vm_compute. reflexivity. Qed.

(** * Further properties *)

(** ** The MAC normalizer beyond strings of 12 hex digits *)

Section NormalizeMacMore.
Context `{Host}.

Lemma normalizeMac_cases mac :
  normalizeMac mac = Ok mac
  ∨ exists a b c d e f g h i j k l,
      truthy mac = true
      ∧ strip_non_hex (toUpperCase (ToString mac)) = hex12 a b c d e f g h i j k l
      ∧ forallb is_hex_upper [a; b; c; d; e; f; g; h; i; j; k; l] = true
      ∧ normalizeMac mac = Ok (VStr (colon_pairs a b c d e f g h i j k l)).
Proof.
  destruct (truthy mac) eqn:Ht; [|left; by apply normalizeMac_falsy].
  destruct (Nat.eq_dec (String.length (strip_non_hex (toUpperCase (ToString mac)))) 12)
    as [Hlen|Hlen]; [|left; by apply normalizeMac_other_length].
  destruct (string_length_12 _ Hlen) as (a & b & c & d & e & f & g & h & i & j & k & l & Hhex).
  right. exists a, b, c, d, e, f, g, h, i, j, k, l.
  split; [done|]. split; [done|]. split; [by eapply hex12_digits|].
  by apply normalizeMac_hex12.
Qed.


Lemma normalizeMac_digits_only (mac1 mac2 : value) :
  truthy mac1 = true ->
  truthy mac2 = true ->
  strip_non_hex (toUpperCase (ToString mac1)) = strip_non_hex (toUpperCase (ToString mac2)) ->
  String.length (strip_non_hex (toUpperCase (ToString mac1))) = 12 ->
  normalizeMac mac1 = normalizeMac mac2.
Proof.
  intros Ht1 Ht2 Heq Hlen.
  destruct (string_length_12 _ Hlen) as (a & b & c & d & e & f & g & h & i & j & k & l & Hhex).
  rewrite (normalizeMac_hex12 mac1 _ _ _ _ _ _ _ _ _ _ _ _ Ht1 Hhex).
  rewrite Heq in Hhex.
  by rewrite (normalizeMac_hex12 mac2 _ _ _ _ _ _ _ _ _ _ _ _ Ht2 Hhex).
Qed.

(** X2. Letter case and separators do not matter: two inputs with the same 12
    hex digits give the same result. *)
Theorem normalizeMac_same_digits (mac1 mac2 : value) :
  truthy mac1 = true ->
  truthy mac2 = true ->
  strip_non_hex (toUpperCase (ToString mac1)) = strip_non_hex (toUpperCase (ToString mac2)) ->
  String.length (strip_non_hex (toUpperCase (ToString mac1))) = 12 ->
  normalizeMac mac1 = normalizeMac mac2.
Proof. apply normalizeMac_digits_only. Qed.

Context `{!HostLaws H}.

Lemma normalizeMac_fixed_point mac n :
  normalizeMac mac = Ok n -> normalizeMac n = Ok n.
Proof.
  intros Hn.
  destruct (normalizeMac_cases mac)
    as [Hsame|(a & b & c & d & e & f & g & h & i & j & k & l & _ & _ & Hall & Hn')].
  - rewrite Hsame in Hn. injection Hn as <-. exact Hsame.
  - rewrite Hn' in Hn. injection Hn as <-.
    apply normalizeMac_hex12; [reflexivity|].
    simpl ToString. by apply colon_pairs_fixed.
Qed.


(** X4. Inputs that are not strings: a boolean comes back as it is, and so
    does a plain object without a [toString] key of its own, which prints
    as [[object Object]]; an array holding one string of 12 hex digits
    comes back as the canonical string of that element. *)
Theorem normalizeMac_not_a_string :
  (∀ b : bool, normalizeMac (VBool b) = Ok (VBool b))
  ∧ (∀ props : gmap string value,
       props !! "toString" = None -> normalizeMac (VObj props) = Ok (VObj props))
  ∧ (∀ s : string,
       String.length (strip_non_hex (toUpperCase s)) = 12 ->
       normalizeMac (VArr [VStr s]) = normalizeMac (VStr s)).
Proof.
  split; [|split].
  - intros [|]; [|reflexivity].
    apply normalizeMac_other_length. simpl ToString.
    rewrite (toUpperCase_ascii "true") by reflexivity. vm_compute. lia.
  - intros props _. apply normalizeMac_other_length. simpl ToString.
    rewrite (toUpperCase_ascii "[object Object]") by reflexivity. vm_compute. lia.
  - intros s Hlen. apply normalizeMac_digits_only; [reflexivity| |reflexivity|exact Hlen].
    by apply twelve_hex_truthy.
Qed.
End NormalizeMacMore.

Lemma normalizeMac_same_digits_run :
  normalizeMac (H := mock_host offline no_json) (VStr "dd-da-0c-20-e1-41")
  = normalizeMac (H := mock_host offline no_json) (VStr "DDDA.0C20.E141").
Proof.
  apply (normalizeMac_same_digits (H := mock_host offline no_json));
    vm_compute; reflexivity.
Defined.


Lemma normalizeMac_not_a_string_run :
  normalizeMac (H := mock_host offline no_json) (VArr [VStr "dd:da:0c:20:e1:41"])
  = normalizeMac (H := mock_host offline no_json) (VStr "dd:da:0c:20:e1:41")
  ∧ normalizeMac (H := mock_host offline no_json) (obj [("vendor", VStr "Espressif")])
    = Ok (obj [("vendor", VStr "Espressif")]).
Proof.
  destruct (@normalizeMac_not_a_string (mock_host offline no_json)
              (mock_host_laws offline no_json)) as (_ & Hobject & Harray).
  split.
  - apply Harray. reflexivity.
  - apply Hobject. vm_compute. reflexivity.
Defined.

(** ** The feed flattener on documents of any shape *)

Section FlattenMore.
Context `{Host}.

Lemma feed_readings_agree board board' (feed feed' : gmap string value) :
  (∀ i, (1 ≤ i ≤ 8)%nat ->
        board !! indexed_key "info" i = board' !! indexed_key "info" i) ->
  (∀ i, (1 ≤ i ≤ 8)%nat ->
        feed !! indexed_key "value" i = feed' !! indexed_key "value" i) ->
  feed_readings board feed = feed_readings board' feed'.
Proof.
  intros Hb Hf. unfold feed_readings, emitted.
  rewrite !Hb, !Hf by lia. reflexivity.
Qed.

(** X5. Only [info1] to [info8] of the board and [value1] to [value8] of a feed
    are read: documents that agree on these give the same output. *)
Theorem flatten_reads_only_indexed_keys (board board' : gmap string value)
    (feeds feeds' : list (gmap string value)) :
  (∀ i, (1 ≤ i ≤ 8)%nat ->
        board !! indexed_key "info" i = board' !! indexed_key "info" i) ->
  Forall2 (fun feed feed' : gmap string value =>
             ∀ i, (1 ≤ i ≤ 8)%nat ->
                  feed !! indexed_key "value" i = feed' !! indexed_key "value" i)
    feeds feeds' ->
  flatten (wide_feed_document board feeds) = flatten (wide_feed_document board' feeds').
Proof.
  intros Hb Hfs. rewrite !flatten_document. f_equal.
  induction Hfs as [|feed feed' rest rest' Hf _ IH]; [reflexivity|].
  rewrite !flatten_spec_cons, IH. f_equal. by apply feed_readings_agree.
Qed.

Lemma emitted_shape board feed i :
  Forall (fun r => exists info n,
            is_defined info = true ∧ r = obj [("info", info); ("value", VNum n)])
    (emitted board feed i).
Proof.
  unfold emitted.
  destruct (board !! indexed_key "info" i) as [info|]; [|constructor].
  destruct (feed !! indexed_key "value" i) as [raw|]; [|constructor].
  destruct (is_defined info) eqn:Hinfo; [|constructor].
  destruct (is_defined raw); [|constructor].
  constructor; [|constructor]. by exists info, (Number raw).
Qed.

Lemma feed_readings_length board feed : (List.length (feed_readings board feed) ≤ 8)%nat.
Proof.
  unfold feed_readings. rewrite !length_app.
  pose proof (emitted_at_most_one board feed 1). pose proof (emitted_at_most_one board feed 2).
  pose proof (emitted_at_most_one board feed 3). pose proof (emitted_at_most_one board feed 4).
  pose proof (emitted_at_most_one board feed 5). pose proof (emitted_at_most_one board feed 6).
  pose proof (emitted_at_most_one board feed 7). pose proof (emitted_at_most_one board feed 8).
  lia.
Qed.

(** X6. The output has at most 8 readings per feed, and every reading is an
    object [{info, value}] whose [info] is defined and whose [value] is a
    number. *)
Theorem flatten_output_shape (board : gmap string value) (feeds : list (gmap string value)) :
  exists out : list value,
    flatten (wide_feed_document board feeds) = Ok out
    ∧ (List.length out ≤ 8 * List.length feeds)%nat
    ∧ Forall (fun r => exists (info : value) (n : float),
                is_defined info = true ∧ r = obj [("info", info); ("value", VNum n)])
        out.
Proof.
  exists (flatten_spec board feeds). split; [apply flatten_document|]. split.
  - induction feeds as [|feed rest IH]; [simpl; lia|].
    rewrite flatten_spec_cons, length_app. simpl List.length.
    pose proof (feed_readings_length board feed). lia.
  - induction feeds as [|feed rest IH]; [constructor|].
    rewrite flatten_spec_cons. apply Forall_app. split; [|exact IH].
    unfold feed_readings. repeat (apply Forall_app; split); apply emitted_shape.
Qed.

(** *** Documents that are not wide-feed documents *)

Lemma flatten_index_no_label board feed i acc :
  is_defined (field board (indexed_key "info" i)) = false ->
  truthy board = true ->
  flatten_index board feed i acc = Ok acc.
Proof.
  intros Hundef Hb. unfold flatten_index.
  assert (Hget : get board (indexed_key "info" i) = Ok (field board (indexed_key "info" i)))
    by (destruct board; try discriminate Hb; reflexivity).
  by rewrite Hget, bind_Ok, Hundef.
Qed.

(** With a feed that is [null], the inner loop stops at the first index
    whose label is defined. *)
Lemma for_each_null_feed (board : gmap string value) indices acc :
  for_each indices (flatten_index (VObj board) VNull) acc
  = match find (fun i => is_defined (field (VObj board) (indexed_key "info" i))) indices with
    | Some j => Throw (type_error (PropertyOfNullish (indexed_key "value" j)))
    | None => Ok acc
    end.
Proof.
  induction indices as [|i rest IH]; [reflexivity|].
  rewrite for_each_cons. cbn [find].
  destruct (is_defined (field (VObj board) (indexed_key "info" i))) eqn:Hi.
  - unfold flatten_index, get. rewrite bind_Ok. unfold field in Hi. rewrite Hi. reflexivity.
  - rewrite flatten_index_no_label by done. by rewrite bind_Ok.
Qed.

Lemma for_each_no_labels board (feedList : list value) acc :
  truthy board = true ->
  (∀ i, (1 ≤ i ≤ 8)%nat -> is_defined (field board (indexed_key "info" i)) = false) ->
  for_each feedList
    (fun feed result => for_each (seq 1 8) (flatten_index board feed) result) acc
  = Ok acc.
Proof.
  intros Hb Hnone. induction feedList as [|feed rest IH]; [reflexivity|].
  rewrite for_each_cons.
  assert (Hinner : ∀ indices,
            Forall (fun i => (1 ≤ i ≤ 8)%nat) indices ->
            for_each indices (flatten_index board feed) acc = Ok acc).
  { induction 1 as [|i more Hi _ IHi]; [reflexivity|].
    by rewrite for_each_cons, flatten_index_no_label, bind_Ok by auto. }
  rewrite Hinner, bind_Ok; [exact IH|].
  repeat constructor; lia.
Qed.

Lemma for_each_app {A S} (xs ys : list A) (body : A -> S -> completion S) s :
  for_each (xs ++ ys) body s = mbind (for_each ys body) (for_each xs body s).
Proof.
  revert s; induction xs as [|x xs IH]; intros s; [reflexivity|].
  simpl app. rewrite !for_each_cons. destruct (body x s); simpl; [apply IH|reflexivity].
Qed.
End FlattenMore.

Section ReceiveMore.
Context `{Host}.

Lemma flatten_object (json board : gmap string value) (feedList : list value) :
  json !! "board" = Some (VObj board) ->
  json !! "feeds" = Some (VArr feedList) ->
  flatten (VObj json)
  = for_each feedList
      (fun feed result => for_each (seq 1 8) (flatten_index (VObj board) feed) result) [].
Proof.
  intros Hb Hf. unfold flatten, get. rewrite Hb, Hf. reflexivity.
Qed.

Lemma flatten_no_feeds json :
  truthy json = true ->
  truthy (field json "feeds") = false ->
  flatten json = Ok [].
Proof.
  intros Hj Hf. unfold flatten.
  assert (Hget : ∀ key, get json key = Ok (field json key))
    by (intros key; destruct json; try discriminate Hj; reflexivity).
  rewrite !Hget, !bind_Ok. unfold or_else at 2. rewrite Hf. reflexivity.
Qed.

Lemma flatten_no_labels json (feedList : list value) :
  truthy json = true ->
  field json "feeds" = VArr feedList ->
  (∀ i, (1 ≤ i ≤ 8)%nat ->
        is_defined (field (or_else (field json "board") (obj [])) (indexed_key "info" i))
        = false) ->
  flatten json = Ok [].
Proof.
  intros Hj Hf Hnone. unfold flatten.
  assert (Hget : ∀ key, get json key = Ok (field json key))
    by (intros key; destruct json; try discriminate Hj; reflexivity).
  rewrite !Hget, !bind_Ok, Hf. simpl or_else at 2. simpl iterate. rewrite bind_Ok.
  apply for_each_no_labels; [|exact Hnone].
  unfold or_else. by destruct (truthy (field json "board")) eqn:Hb.
Qed.

Lemma flatten_string_feeds json (s : string) :
  truthy json = true ->
  field json "feeds" = VStr s ->
  flatten json = Ok [].
Proof.
  intros Hj Hf. unfold flatten.
  assert (Hget : ∀ key, get json key = Ok (field json key))
    by (intros key; destruct json; try discriminate Hj; reflexivity).
  rewrite !Hget, !bind_Ok, Hf.
  assert (Hfeeds : or_else (VStr s) (VArr []) = VStr s ∨ or_else (VStr s) (VArr []) = VArr [])
    by (unfold or_else; destruct (truthy (VStr s)); auto).
  set (board := or_else (field json "board") (obj [])).
  assert (Hboard : ∀ i, exists v, get board (indexed_key "info" i) = Ok v).
  { intros i. unfold board, or_else.
    destruct (truthy (field json "board")) eqn:Hb; [|by eexists].
    destruct (field json "board"); try discriminate Hb; by eexists. }
  destruct Hfeeds as [-> | ->]; [|reflexivity]. simpl iterate. rewrite bind_Ok.
  clear Hf. generalize (@nil value) as acc. induction s as [|c s IH]; intros acc; [reflexivity|].
  simpl characters. rewrite for_each_cons.
  assert (Hstep : ∀ i, flatten_index board (VStr (String c EmptyString)) i acc = Ok acc).
  { intros i. unfold flatten_index. cbv zeta.
    destruct (Hboard i) as (v & Hv). rewrite Hv, bind_Ok. by destruct (is_defined v). }
  assert (Hinner : ∀ indices,
            for_each indices (flatten_index board (VStr (String c EmptyString))) acc = Ok acc).
  { induction indices as [|i more IHi]; [reflexivity|].
    by rewrite for_each_cons, Hstep, bind_Ok. }
  rewrite Hinner, bind_Ok. apply IH.
Qed.

(** What [receiveData] returns once the response is read and its body
    parsed to a truthy value. *)
Lemma receiveData_processed cn cp receiveKey boardKey recents res text json :
  (∀ req, fetch req = Resolved res) ->
  res_text res = Ok text ->
  JSON_parse text = Some json ->
  truthy json = true ->
  NodeHelper.receiveData cn receiveKey boardKey recents
  = match flatten json with
    | Ok feeds => Ok (obj [("ok", VBool (res_ok res)); ("status", VNum (res_status res));
                           ("feeds", VArr feeds); ("body", json)])
    | Throw err => Ok (failure NodeHelper.FETCH_HINT err)
    end
  ∧ ProxyHelper.receiveData cp receiveKey boardKey recents
    = match flatten json with
      | Ok feeds => Ok (obj [("ok", VBool (res_ok res)); ("status", VNum (res_status res));
                             ("feeds", VArr feeds); ("body", json)])
      | Throw err => Ok (failure ProxyHelper.RECEIVE_HINT err)
      end.
Proof.
  intros Hf Ht Hj Htr.
  unfold NodeHelper.receiveData, ProxyHelper.receiveData, await_fetch.
  rewrite !Hf, !bind_Ok, Ht, !bind_Ok.
  unfold receive_result, parse_or_null. rewrite Hj, Htr. simpl negb. cbv iota.
  by destruct (flatten json).
Qed.

(** X7. A body that parses to a value without feeds, with feeds that are a
    string, or to a document without any label from 1 to 8, is no error:
    [receiveData] returns an empty [feeds] array with the parsed body.  The
    first case covers a body that is a number, a string or an array; the
    last holds whatever the feeds contain, [null] entries included. *)
Theorem receiveData_nothing_to_flatten
    (cn : NodeHelper.config) (cp : ProxyHelper.config) (receiveKey boardKey : string)
    (recents : value) (res : response) (text : string) (json : value) :
  (∀ req, fetch req = Resolved res) ->
  res_text res = Ok text ->
  JSON_parse text = Some json ->
  truthy json = true ->
  truthy (field json "feeds") = false
  ∨ (exists s : string, field json "feeds" = VStr s)
  ∨ (exists feedList : list value,
       field json "feeds" = VArr feedList
       ∧ ∀ i, (1 ≤ i ≤ 8)%nat ->
              is_defined (field (or_else (field json "board") (obj []))
                            (indexed_key "info" i)) = false) ->
  NodeHelper.receiveData cn receiveKey boardKey recents
  = Ok (obj [("ok", VBool (res_ok res)); ("status", VNum (res_status res));
             ("feeds", VArr []); ("body", json)])
  ∧ ProxyHelper.receiveData cp receiveKey boardKey recents
    = Ok (obj [("ok", VBool (res_ok res)); ("status", VNum (res_status res));
               ("feeds", VArr []); ("body", json)]).
Proof.
  intros Hf Ht Hj Htr Hcase.
  destruct (receiveData_processed cn cp receiveKey boardKey recents _ _ _ Hf Ht Hj Htr)
    as [-> ->].
  assert (Hflat : flatten json = Ok []).
  { destruct Hcase as [Hnone|[(s & Hstring)|(feedList & Hfeeds & Hlabels)]].
    - by apply flatten_no_feeds.
    - by eapply flatten_string_feeds.
    - by eapply flatten_no_labels. }
  by rewrite Hflat.
Qed.

(** X8. A body whose [feeds] is a number, [true] or an object is not iterable:
    the [TypeError] is caught, and [receiveData] returns
    [{ok: false, status: 0, error}] with the engine's message although the
    response had arrived. *)
Theorem receiveData_feeds_not_iterable
    (cn : NodeHelper.config) (cp : ProxyHelper.config) (receiveKey boardKey : string)
    (recents : value) (res : response) (text : string) (json : value) :
  (∀ req, fetch req = Resolved res) ->
  res_text res = Ok text ->
  JSON_parse text = Some json ->
  truthy json = true ->
  truthy (field json "feeds") = true ->
  (∀ feedList, field json "feeds" ≠ VArr feedList) ->
  (∀ s, field json "feeds" ≠ VStr s) ->
  NodeHelper.receiveData cn receiveKey boardKey recents
  = Ok (obj [("ok", VBool false); ("status", VNum 0%float);
             ("error", hint NodeHelper.FETCH_HINT (type_error NotIterable))])
  ∧ ProxyHelper.receiveData cp receiveKey boardKey recents
    = Ok (obj [("ok", VBool false); ("status", VNum 0%float);
               ("error", hint ProxyHelper.RECEIVE_HINT (type_error NotIterable))]).
Proof.
  intros Hf Ht Hj Htr Hfeeds Harr Hstr.
  destruct (receiveData_processed cn cp receiveKey boardKey recents _ _ _ Hf Ht Hj Htr)
    as [-> ->].
  assert (Hflat : flatten json = Throw (type_error NotIterable)).
  { unfold flatten.
    assert (Hget : ∀ key, get json key = Ok (field json key))
      by (intros key; destruct json; try discriminate Htr; reflexivity).
    rewrite !Hget, !bind_Ok. unfold or_else at 2. rewrite Hfeeds.
    destruct (field json "feeds") as [| | | | s|feedList|]; try reflexivity.
    - by destruct (Hstr s).
    - by destruct (Harr feedList). }
  by rewrite Hflat.
Qed.

(** X9. A feed that is [null] makes the loop throw at the first index whose
    label is defined, whatever comes after it: the readings gathered from
    the feeds before it are lost and [receiveData] returns
    [{ok: false, status: 0, error}]. *)
Theorem receiveData_null_feed
    (cn : NodeHelper.config) (cp : ProxyHelper.config) (receiveKey boardKey : string)
    (recents : value) (res : response) (text : string)
    (json board : gmap string value) (before : list (gmap string value))
    (after : list value) (j : nat) :
  (∀ req, fetch req = Resolved res) ->
  res_text res = Ok text ->
  JSON_parse text = Some (VObj json) ->
  json !! "board" = Some (VObj board) ->
  json !! "feeds" = Some (VArr ((VObj <$> before) ++ VNull :: after)) ->
  find (fun i => is_defined (field (VObj board) (indexed_key "info" i))) (seq 1 8) = Some j ->
  NodeHelper.receiveData cn receiveKey boardKey recents
  = Ok (obj [("ok", VBool false); ("status", VNum 0%float);
             ("error", hint NodeHelper.FETCH_HINT
                         (type_error (PropertyOfNullish (indexed_key "value" j))))])
  ∧ ProxyHelper.receiveData cp receiveKey boardKey recents
    = Ok (obj [("ok", VBool false); ("status", VNum 0%float);
               ("error", hint ProxyHelper.RECEIVE_HINT
                           (type_error (PropertyOfNullish (indexed_key "value" j))))]).
Proof.
  intros Hf Ht Hj Hb Hfeeds Hfind.
  destruct (receiveData_processed cn cp receiveKey boardKey recents _ _ _ Hf Ht Hj eq_refl)
    as [-> ->].
  assert (Hflat : flatten (VObj json)
                  = Throw (type_error (PropertyOfNullish (indexed_key "value" j)))).
  { rewrite (flatten_object _ _ _ Hb Hfeeds), for_each_app, for_each_feeds, bind_Ok.
    by rewrite for_each_cons, for_each_null_feed, Hfind. }
  by rewrite Hflat.
Qed.

(** X10. A body that parses to a falsy value ([null], [0], [false], [""]) is
    treated like a body that does not parse: the result carries the raw
    text and no [feeds]. *)
Theorem receiveData_falsy_body
    (cn : NodeHelper.config) (cp : ProxyHelper.config) (receiveKey boardKey : string)
    (recents : value) (res : response) (text : string) (json : value) :
  (∀ req, fetch req = Resolved res) ->
  res_text res = Ok text ->
  JSON_parse text = Some json ->
  truthy json = false ->
  exists props : gmap string value,
    NodeHelper.receiveData cn receiveKey boardKey recents = Ok (VObj props)
    ∧ ProxyHelper.receiveData cp receiveKey boardKey recents = Ok (VObj props)
    ∧ props !! "ok" = Some (VBool (res_ok res))
    ∧ props !! "status" = Some (VNum (res_status res))
    ∧ props !! "body" = Some (VStr text)
    ∧ props !! "feeds" = None.
Proof.
  intros Hf Ht Hj Htr.
  exists (list_to_map [("ok", VBool (res_ok res)); ("status", VNum (res_status res));
                       ("body", VStr text)]).
  unfold NodeHelper.receiveData, ProxyHelper.receiveData, await_fetch.
  rewrite !Hf, !bind_Ok, Ht, !bind_Ok.
  unfold receive_result, parse_or_null. rewrite Hj, Htr. simpl negb. cbv iota.
  repeat split; reflexivity.
Qed.

(** X11. When reading the body of the response fails, the error is caught like
    a failure of [fetch]: the status of the response is not reported. *)
Theorem receiveData_unreadable_body
    (cn : NodeHelper.config) (cp : ProxyHelper.config) (receiveKey boardKey : string)
    (recents : value) (res : response) (err : error) :
  (∀ req, fetch req = Resolved res) ->
  res_text res = Throw err ->
  NodeHelper.receiveData cn receiveKey boardKey recents
  = Ok (obj [("ok", VBool false); ("status", VNum 0%float);
             ("error", hint NodeHelper.FETCH_HINT err)])
  ∧ ProxyHelper.receiveData cp receiveKey boardKey recents
    = Ok (obj [("ok", VBool false); ("status", VNum 0%float);
               ("error", hint ProxyHelper.RECEIVE_HINT err)]).
Proof.
  intros Hf Ht.
  unfold NodeHelper.receiveData, ProxyHelper.receiveData, await_fetch.
  rewrite !Hf, !bind_Ok, Ht. by split.
Qed.
End ReceiveMore.

(** ** [sendData] and the store *)

Section SendDataStore.
Context `{Host}.

Lemma node_sendData_store c st sendKey boardKey sensors boardInfo precision :
  fst (NodeHelper.sendData c st sendKey boardKey sensors boardInfo precision)
  = fst (normalize_deviceMAC (fst (bind_boardInfo st boardInfo))
           (snd (bind_boardInfo st boardInfo))).
Proof.
  unfold NodeHelper.sendData.
  destruct (bind_boardInfo st boardInfo) as [st0 boardInfo0]. simpl fst; simpl snd.
  destruct (normalize_deviceMAC st0 boardInfo0) as [st1 [[]|e]]; [|reflexivity].
  by destruct (payload st1 sensors boardInfo0 (bind_precision precision)).
Qed.

Lemma proxy_sendData_store c st sendKey boardKey sensors boardInfo precision :
  fst (ProxyHelper.sendData c st sendKey boardKey sensors boardInfo precision)
  = fst (normalize_deviceMAC (fst (bind_boardInfo st boardInfo))
           (snd (bind_boardInfo st boardInfo))).
Proof.
  unfold ProxyHelper.sendData.
  destruct (bind_boardInfo st boardInfo) as [st0 boardInfo0]. simpl fst; simpl snd.
  destruct (normalize_deviceMAC st0 boardInfo0) as [st1 [[]|e]]; [|reflexivity].
  by destruct (payload st1 sensors boardInfo0 (bind_precision precision)).
Qed.

(** The normalization writes to the object [boardInfo] refers to, and to
    its [deviceMAC] only. *)
Lemma normalize_deviceMAC_frame st boardInfo l' :
  (boardInfo ≠ Ref l' ->
   fst (normalize_deviceMAC st boardInfo) !! l' = st !! l')
  ∧ (∀ key : string, key ≠ "deviceMAC" ->
       default ∅ (fst (normalize_deviceMAC st boardInfo) !! l') !! key
       = default ∅ (st !! l') !! key)
  ∧ (is_Some (st !! l') -> is_Some (fst (normalize_deviceMAC st boardInfo) !! l')).
Proof.
  unfold normalize_deviceMAC.
  destruct (truthy_param boardInfo); [|done].
  destruct (load st boardInfo "deviceMAC") as [mac|e]; [|done].
  destruct (truthy mac); [|done].
  destruct (normalizeMac mac) as [n|e]; [|done].
  simpl fst. unfold assign. destruct boardInfo as [v|l]; [done|].
  destruct (decide (l = l')) as [->|Hne].
  - rewrite lookup_insert_eq. split; [done|]. split; [|by eexists].
    intros key Hkey. simpl default. by rewrite lookup_insert_ne.
  - by rewrite lookup_insert_ne.
Qed.

Lemma bind_boardInfo_frame st boardInfo l' props' :
  st !! l' = Some props' ->
  fst (bind_boardInfo st boardInfo) !! l' = Some props'
  ∧ (boardInfo ≠ Ref l' -> snd (bind_boardInfo st boardInfo) ≠ Ref l').
Proof.
  intros Hl'.
  assert (Hfresh : fresh (dom st) ≠ l').
  { intros Heq. subst l'. apply (is_fresh (dom st)). by apply elem_of_dom_2 with props'. }
  destruct boardInfo as [[]|l]; simpl; try done.
  - rewrite lookup_insert_ne by done. split; [done|]. intros _ [= Heq]. by apply Hfresh.
  - rewrite lookup_insert_ne by done. split; [done|]. intros _ [= Heq]. by apply Hfresh.
Qed.

Lemma sendData_store_frame st boardInfo l' props' :
  st !! l' = Some props' ->
  exists props1 : gmap string value,
    fst (normalize_deviceMAC (fst (bind_boardInfo st boardInfo))
           (snd (bind_boardInfo st boardInfo))) !! l' = Some props1
    ∧ (∀ key : string, key ≠ "deviceMAC" -> props1 !! key = props' !! key)
    ∧ (boardInfo ≠ Ref l' -> props1 = props').
Proof.
  intros Hl'.
  destruct (bind_boardInfo_frame st boardInfo l' props' Hl') as [Hbind Href].
  destruct (normalize_deviceMAC_frame (fst (bind_boardInfo st boardInfo))
              (snd (bind_boardInfo st boardInfo)) l') as (Hother & Hkeys & Hsome).
  destruct Hsome as [props1 Hprops1]; [by eexists|].
  exists props1. split; [done|]. split.
  - intros key Hkey. specialize (Hkeys key Hkey).
    by rewrite Hprops1, Hbind in Hkeys.
  - intros Hne. rewrite (Hother (Href Hne)), Hbind in Hprops1. by injection Hprops1.
Qed.

(** X12. Whatever is passed as [boardInfo], and whether the call returns or
    throws, an object of the caller's store keeps all its fields except
    possibly [deviceMAC], and keeps that one too unless [boardInfo] refers
    to it. *)
Theorem sendData_leaves_the_store_alone
    (cn : NodeHelper.config) (cp : ProxyHelper.config) (st : store)
    (sendKey boardKey : string) (sensors : value) (boardInfo : param) (precision : value)
    (l' : loc) (props' : gmap string value) :
  st !! l' = Some props' ->
  (exists props1 : gmap string value,
     fst (NodeHelper.sendData cn st sendKey boardKey sensors boardInfo precision) !! l'
     = Some props1
     ∧ (∀ key : string, key ≠ "deviceMAC" -> props1 !! key = props' !! key)
     ∧ (boardInfo ≠ Ref l' -> props1 = props'))
  ∧ (exists props1 : gmap string value,
       fst (ProxyHelper.sendData cp st sendKey boardKey sensors boardInfo precision) !! l'
       = Some props1
       ∧ (∀ key : string, key ≠ "deviceMAC" -> props1 !! key = props' !! key)
       ∧ (boardInfo ≠ Ref l' -> props1 = props')).
Proof.
  intros Hl'. rewrite node_sendData_store, proxy_sendData_store.
  split; by apply sendData_store_frame.
Qed.

(** X13. When [sensors] is not an array [sendData] throws, but only after it has
    written the normalized MAC to the caller's object. *)
Theorem sendData_writes_before_it_throws
    (cn : NodeHelper.config) (cp : ProxyHelper.config) (st : store) (l : loc)
    (props : gmap string value) (mac : value)
    (sendKey boardKey : string) (sensors precision : value) :
  st !! l = Some props ->
  props !! "deviceMAC" = Some mac ->
  truthy mac = true ->
  (∀ elems, sensors ≠ VArr elems) ->
  exists (n : value) (e : error),
    normalizeMac mac = Ok n
    ∧ NodeHelper.sendData cn st sendKey boardKey sensors (Ref l) precision
      = (<[l := <["deviceMAC" := n]> props]> st, Throw e)
    ∧ ProxyHelper.sendData cp st sendKey boardKey sensors (Ref l) precision
      = (<[l := <["deviceMAC" := n]> props]> st, Throw e).
Proof.
  intros Hl Hmac Ht Hsensors.
  destruct (normalizeMac_returns mac) as (n & Hn).
  pose proof (normalize_deviceMAC_supplied _ _ _ _ _ Hl Hmac Ht Hn) as Hstep.
  assert (Hp : exists e, ∀ st', payload st' sensors (Ref l) (bind_precision precision)
                                = Throw e).
  { unfold payload, array_map.
    destruct sensors as [| | | | |elems|]; try (by eexists); by destruct (Hsensors elems). }
  destruct Hp as (e & Hp). exists n, e. split; [done|].
  rewrite (node_sendData_ref _ _ _ _ _ _ _ _ Hstep), (proxy_sendData_ref _ _ _ _ _ _ _ _ Hstep).
  by rewrite Hp.
Qed.

(** X14. A [boardInfo] of [null] gets past the guard of the normalization, and
    the payload literal then throws: nothing is ever sent, and the store
    is as it was. *)
Theorem sendData_null_boardInfo_throws
    (cn : NodeHelper.config) (cp : ProxyHelper.config) (st : store)
    (sendKey boardKey : string) (sensors precision : value) :
  exists e : error,
    NodeHelper.sendData cn st sendKey boardKey sensors (Val VNull) precision = (st, Throw e)
    ∧ ProxyHelper.sendData cp st sendKey boardKey sensors (Val VNull) precision
      = (st, Throw e).
Proof.
  assert (Hp : exists e, payload st sensors (Val VNull) (bind_precision precision) = Throw e).
  { unfold payload.
    destruct (array_map (sensor_entry (bind_precision precision)) sensors);
      simpl; by eexists. }
  destruct Hp as (e & Hp). exists e.
  unfold NodeHelper.sendData, ProxyHelper.sendData. simpl bind_boardInfo. cbv beta iota zeta.
  unfold normalize_deviceMAC. simpl truthy_param. cbv iota. by rewrite Hp.
Qed.

Context `{!HostLaws H}.

Lemma normalize_deviceMAC_Ref st l :
  normalize_deviceMAC st (Ref l)
  = if truthy (field (VObj (default ∅ (st !! l))) "deviceMAC") then
      match normalizeMac (field (VObj (default ∅ (st !! l))) "deviceMAC") with
      | Throw e => (st, Throw e)
      | Ok n => (<[l := <["deviceMAC" := n]> (default ∅ (st !! l))]> st, Ok tt)
      end
    else (st, Ok tt).
Proof. reflexivity. Qed.

Lemma normalize_deviceMAC_settled st l :
  fst (normalize_deviceMAC (fst (normalize_deviceMAC st (Ref l))) (Ref l))
  = fst (normalize_deviceMAC st (Ref l)).
Proof.
  rewrite (normalize_deviceMAC_Ref st l).
  destruct (truthy (field (VObj (default ∅ (st !! l))) "deviceMAC")) eqn:Ht.
  - destruct (normalizeMac_returns (field (VObj (default ∅ (st !! l))) "deviceMAC"))
      as (n & Hn).
    rewrite Hn. simpl fst. rewrite normalize_deviceMAC_Ref.
    rewrite lookup_insert_eq. simpl default. unfold field at 1 2.
    rewrite lookup_insert_eq. simpl default.
    rewrite (normalizeMac_truthy _ _ Ht Hn), (normalizeMac_fixed_point _ _ Hn).
    simpl fst. by rewrite insert_insert_eq, insert_insert_eq.
  - simpl fst. rewrite normalize_deviceMAC_Ref. by rewrite Ht.
Qed.

(** X15. Once [sendData] has run on the caller's object, running it again, in
    either helper and with any sensors, leaves the store as it is: the
    normalized MAC is normalized to itself. *)
Theorem sendData_again_keeps_the_store
    (cn : NodeHelper.config) (cp : ProxyHelper.config) (st : store) (l : loc)
    (sendKey boardKey : string) (sensors sensors' precision precision' : value) :
  fst (NodeHelper.sendData cn
         (fst (NodeHelper.sendData cn st sendKey boardKey sensors (Ref l) precision))
         sendKey boardKey sensors' (Ref l) precision')
  = fst (NodeHelper.sendData cn st sendKey boardKey sensors (Ref l) precision)
  ∧ fst (ProxyHelper.sendData cp
           (fst (NodeHelper.sendData cn st sendKey boardKey sensors (Ref l) precision))
           sendKey boardKey sensors' (Ref l) precision')
    = fst (NodeHelper.sendData cn st sendKey boardKey sensors (Ref l) precision).
Proof.
  rewrite !node_sendData_store, !proxy_sendData_store. simpl bind_boardInfo.
  simpl fst; simpl snd. split; apply normalize_deviceMAC_settled.
Qed.
End SendDataStore.

(** ** What [sendData] sends *)

Lemma or_else_truthy a b : truthy b = true -> truthy (or_else a b) = true.
Proof. intros Hb. unfold or_else. by destruct (truthy a) eqn:Ha. Qed.

Lemma nonempty_url (u : string) : u ≠ "" -> url_or_null (Some u) = Some u.
Proof. intros Hu. unfold url_or_null. by destruct u. Qed.

Lemma strip_trailing_slash_added s : ProxyHelper.strip_trailing_slash (s +:+ "/") = s.
Proof.
  induction s as [|c s IH]; [reflexivity|].
  change (String c s +:+ "/") with (String c (s +:+ "/")).
  destruct s as [|c' s]; [reflexivity|].
  change (ProxyHelper.strip_trailing_slash (String c (String c' s +:+ "/")))
    with (String c (ProxyHelper.strip_trailing_slash (String c' s +:+ "/"))).
  by rewrite IH.
Qed.

Lemma strip_trailing_slash_none s :
  (∀ t, s ≠ t +:+ "/") -> ProxyHelper.strip_trailing_slash s = s.
Proof.
  induction s as [|c s IH]; intros Hs; [reflexivity|].
  destruct s as [|c' s].
  - simpl. destruct (Ascii.eqb_spec c "/") as [->|]; [|reflexivity].
    by destruct (Hs "").
  - change (ProxyHelper.strip_trailing_slash (String c (String c' s)))
      with (String c (ProxyHelper.strip_trailing_slash (String c' s))).
    rewrite IH; [reflexivity|]. intros t Ht. apply (Hs (String c t)). simpl. by rewrite Ht.
Qed.

Section SendDataRequests.
Context `{Host}.

(** X16. The board metadata of the payload never has an empty slot: the three
    strings are truthy, [statusOTA] is a boolean and [signalStrength] is
    truthy or [0].  A field that is present but falsy (an empty string,
    [null], [NaN]) is replaced by the default like an absent one. *)
Theorem sendData_board_metadata_is_filled
    (cn : NodeHelper.config) (st : store) (l : loc) (props : gmap string value)
    (sendKey boardKey : string) (sensors : list (gmap string value)) (precision : value) :
  st !! l = Some props ->
  (∀ x, exists d, toFixed x (bind_precision precision) = Ok d) ->
  exists (st' : store) (p : value) (req : request),
    NodeHelper.sendData cn st sendKey boardKey (VArr (VObj <$> sensors)) (Ref l) precision
    = (st', transmit req NodeHelper.FETCH_HINT)
    ∧ req_body req = Some (JSON_stringify p)
    ∧ truthy (field (field p "boardInfo") "firmwareVersion") = true
    ∧ truthy (field (field p "boardInfo") "architecture") = true
    ∧ truthy (field (field p "boardInfo") "deviceMAC") = true
    ∧ field (field p "boardInfo") "statusOTA"
      = VBool (truthy (field (VObj props) "statusOTA"))
    ∧ (truthy (field (field p "boardInfo") "signalStrength") = true
       ∨ field (field p "boardInfo") "signalStrength" = VNum 0%float)
    ∧ (truthy (field (VObj props) "firmwareVersion") = false ->
       field (field p "boardInfo") "firmwareVersion" = VStr "0.0")
    ∧ (truthy (field (VObj props) "architecture") = false ->
       field (field p "boardInfo") "architecture" = VStr "unknown")
    ∧ (truthy (field (VObj props) "deviceMAC") = false ->
       field (field p "boardInfo") "deviceMAC" = VStr "00:00:00:00:00:00")
    ∧ (truthy (field (VObj props) "signalStrength") = false ->
       field (field p "boardInfo") "signalStrength" = VNum 0%float).
Proof.
  intros Hl Hfix.
  destruct (normalize_deviceMAC_ref _ _ _ Hl) as (st' & props' & Hstep & Hl' & Hsame & Hmac).
  destruct (array_map_sensors _ sensors Hfix) as (entries & Hentries & _).
  pose proof (payload_ref _ _ _ _ _ _ Hl' Hentries) as Hp.
  assert (Hfield : ∀ key, key ≠ "deviceMAC" -> field (VObj props') key = field (VObj props) key)
    by (intros key Hkey; unfold field; by rewrite Hsame).
  assert (Hdm : truthy (field (VObj props) "deviceMAC") = false ->
                field (VObj props') "deviceMAC" = field (VObj props) "deviceMAC").
  { intros Hfalsy. rewrite (normalize_deviceMAC_not_supplied _ _ props Hl Hfalsy) in Hstep.
    injection Hstep as Hst. rewrite <- Hst, Hl in Hl'. injection Hl' as Hprops.
    by rewrite Hprops. }
  eexists st', _, _.
  rewrite (node_sendData_ref _ _ _ _ _ _ _ _ Hstep), Hp.
  split; [reflexivity|]. split; [reflexivity|].
  change (truthy (or_else (field (VObj props') "firmwareVersion") (VStr "0.0")) = true
    ∧ truthy (or_else (field (VObj props') "architecture") (VStr "unknown")) = true
    ∧ truthy (or_else (field (VObj props') "deviceMAC") (VStr "00:00:00:00:00:00")) = true
    ∧ VBool (truthy (field (VObj props') "statusOTA"))
      = VBool (truthy (field (VObj props) "statusOTA"))
    ∧ (truthy (or_else (field (VObj props') "signalStrength") (VNum PrimFloat.zero)) = true
       ∨ or_else (field (VObj props') "signalStrength") (VNum PrimFloat.zero) = VNum 0%float)
    ∧ (truthy (field (VObj props) "firmwareVersion") = false ->
       or_else (field (VObj props') "firmwareVersion") (VStr "0.0") = VStr "0.0")
    ∧ (truthy (field (VObj props) "architecture") = false ->
       or_else (field (VObj props') "architecture") (VStr "unknown") = VStr "unknown")
    ∧ (truthy (field (VObj props) "deviceMAC") = false ->
       or_else (field (VObj props') "deviceMAC") (VStr "00:00:00:00:00:00")
       = VStr "00:00:00:00:00:00")
    ∧ (truthy (field (VObj props) "signalStrength") = false ->
       or_else (field (VObj props') "signalStrength") (VNum PrimFloat.zero) = VNum 0%float)).
  rewrite (Hfield "firmwareVersion"), (Hfield "architecture"), (Hfield "statusOTA"),
    (Hfield "signalStrength") by done.
  split; [by apply or_else_truthy|]. split; [by apply or_else_truthy|].
  split; [by apply or_else_truthy|]. split; [reflexivity|].
  split; [unfold or_else; destruct (truthy (field (VObj props) "signalStrength")) eqn:Hs;
          [by left|by right]|].
  split; [intros Hf; unfold or_else; by rewrite Hf|].
  split; [intros Hf; unfold or_else; by rewrite Hf|].
  split; [intros Hf; rewrite (Hdm Hf); unfold or_else; by rewrite Hf|].
  intros Hf; unfold or_else; by rewrite Hf.
Qed.

(** X17. With a proxy configured, as it is when the module loads, [sendData]
    posts to [proxyBase] without its trailing slash plus [/send], with no
    key in the URL, and the body is [{sendKey, boardKey, sensors,
    boardInfo}]: the sensors as they were passed and the caller's object
    with only its MAC normalized, not the payload with formatted values and
    defaults. *)
Theorem proxy_sendData_relays_the_arguments
    (cp : ProxyHelper.config) (base : string) (st : store) (l : loc)
    (props : gmap string value) (sendKey boardKey : string)
    (sensors : list (gmap string value)) (precision : value) :
  ProxyHelper.proxyBase cp = Some base ->
  base ≠ "" ->
  st !! l = Some props ->
  (∀ x, exists d, toFixed x (bind_precision precision) = Ok d) ->
  exists (st' : store) (props' : gmap string value) (req : request),
    ProxyHelper.sendData cp st sendKey boardKey (VArr (VObj <$> sensors)) (Ref l) precision
    = (st', transmit req ProxyHelper.SEND_HINT)
    ∧ st' !! l = Some props'
    ∧ (∀ key : string, key ≠ "deviceMAC" -> props' !! key = props !! key)
    ∧ req_url req = ProxyHelper.strip_trailing_slash base +:+ "/send"
    ∧ req_method req = "POST"
    ∧ req_body req
      = Some (JSON_stringify
                (obj [("sendKey", VStr sendKey); ("boardKey", VStr boardKey);
                      ("sensors", VArr (VObj <$> sensors)); ("boardInfo", VObj props')])).
Proof.
  intros Hbase Hne Hl Hfix.
  destruct (normalize_deviceMAC_ref _ _ _ Hl) as (st' & props' & Hstep & Hl' & Hsame & _).
  destruct (array_map_sensors _ sensors Hfix) as (entries & Hentries & _).
  pose proof (payload_ref _ _ _ _ _ _ Hl' Hentries) as Hp.
  eexists st', props', _.
  rewrite (proxy_sendData_ref _ _ _ _ _ _ _ _ Hstep), Hp, Hbase, (nonempty_url _ Hne).
  split; [reflexivity|]. split; [exact Hl'|]. split; [exact Hsame|].
  split; [reflexivity|]. split; [reflexivity|].
  simpl req_body. unfold ProxyHelper.relayed. by rewrite Hl'.
Qed.

Lemma proxy_sendData_config c c' st sendKey boardKey sensors boardInfo precision :
  option_map ProxyHelper.strip_trailing_slash (url_or_null (ProxyHelper.proxyBase c))
  = option_map ProxyHelper.strip_trailing_slash (url_or_null (ProxyHelper.proxyBase c')) ->
  ProxyHelper.sendData c st sendKey boardKey sensors boardInfo precision
  = ProxyHelper.sendData c' st sendKey boardKey sensors boardInfo precision.
Proof.
  intros Hc. unfold ProxyHelper.sendData.
  destruct (url_or_null (ProxyHelper.proxyBase c)) as [b|],
           (url_or_null (ProxyHelper.proxyBase c')) as [b'|]; try discriminate Hc.
  - injection Hc as ->. reflexivity.
  - reflexivity.
Qed.

Lemma proxy_receiveData_config c c' receiveKey boardKey recents :
  option_map ProxyHelper.strip_trailing_slash (url_or_null (ProxyHelper.proxyBase c))
  = option_map ProxyHelper.strip_trailing_slash (url_or_null (ProxyHelper.proxyBase c')) ->
  ProxyHelper.receiveData c receiveKey boardKey recents
  = ProxyHelper.receiveData c' receiveKey boardKey recents.
Proof.
  intros Hc. unfold ProxyHelper.receiveData.
  destruct (url_or_null (ProxyHelper.proxyBase c)) as [b|],
           (url_or_null (ProxyHelper.proxyBase c')) as [b'|]; try discriminate Hc.
  - injection Hc as ->. reflexivity.
  - reflexivity.
Qed.

(** X18. A proxy base with a slash at its end and the same base without it
    behave alike: [setProxy] with either gives the same calls. *)
Theorem setProxy_trailing_slash
    (c : ProxyHelper.config) (base : string) (st : store)
    (sendKey receiveKey boardKey : string) (sensors : value) (boardInfo : param)
    (precision recents : value) :
  base ≠ "" ->
  (∀ t, base ≠ t +:+ "/") ->
  ProxyHelper.sendData (ProxyHelper.setProxy (Some (base +:+ "/")) c) st sendKey boardKey
    sensors boardInfo precision
  = ProxyHelper.sendData (ProxyHelper.setProxy (Some base) c) st sendKey boardKey
      sensors boardInfo precision
  ∧ ProxyHelper.receiveData (ProxyHelper.setProxy (Some (base +:+ "/")) c)
      receiveKey boardKey recents
    = ProxyHelper.receiveData (ProxyHelper.setProxy (Some base) c)
        receiveKey boardKey recents.
Proof.
  intros Hne Hslash.
  assert (Hc : option_map ProxyHelper.strip_trailing_slash
                 (url_or_null (ProxyHelper.proxyBase
                                 (ProxyHelper.setProxy (Some (base +:+ "/")) c)))
               = option_map ProxyHelper.strip_trailing_slash
                   (url_or_null (ProxyHelper.proxyBase
                                   (ProxyHelper.setProxy (Some base) c)))).
  { unfold ProxyHelper.setProxy. cbn [ProxyHelper.proxyBase].
    assert (Hne' : base +:+ "/" ≠ "") by (by destruct base).
    rewrite !(nonempty_url _ Hne'), !(nonempty_url _ Hne). simpl option_map.
    by rewrite strip_trailing_slash_added, strip_trailing_slash_none. }
  split; [by apply proxy_sendData_config|by apply proxy_receiveData_config].
Qed.

(** X19. With the proxy switched off and the Node helper reset to its defaults,
    the two [sendData] do the same: they throw the same error, or they send
    the same request, with the keys in the URL and the payload as body. *)
Theorem sendData_same_request_without_proxy
    (cn : NodeHelper.config) (cp : ProxyHelper.config) (st : store)
    (sendKey boardKey : string) (sensors : value) (boardInfo : param) (precision : value) :
  (exists (st' : store) (e : error),
     NodeHelper.sendData (NodeHelper.setSslOptions VNull (NodeHelper.setBaseUrls None None cn))
       st sendKey boardKey sensors boardInfo precision = (st', Throw e)
     ∧ ProxyHelper.sendData (ProxyHelper.setProxy None cp)
         st sendKey boardKey sensors boardInfo precision = (st', Throw e))
  ∨ (exists (st' : store) (p : value),
       NodeHelper.sendData
         (NodeHelper.setSslOptions VNull (NodeHelper.setBaseUrls None None cn))
         st sendKey boardKey sensors boardInfo precision
       = (st', transmit
                 {| req_url := "https://api.consentiumiot.com/v2/updateData?sendKey="
                               +:+ encodeURIComponent sendKey
                               +:+ "&boardKey=" +:+ encodeURIComponent boardKey;
                    req_method := "POST";
                    req_headers := [("Content-Type", "application/json")];
                    req_body := Some (JSON_stringify p);
                    req_agent := None |}
                 NodeHelper.FETCH_HINT)
       ∧ ProxyHelper.sendData (ProxyHelper.setProxy None cp)
           st sendKey boardKey sensors boardInfo precision
         = (st', transmit
                   {| req_url := "https://api.consentiumiot.com/v2/updateData?sendKey="
                                 +:+ encodeURIComponent sendKey
                                 +:+ "&boardKey=" +:+ encodeURIComponent boardKey;
                      req_method := "POST";
                      req_headers := [("Content-Type", "application/json")];
                      req_body := Some (JSON_stringify p);
                      req_agent := None |}
                   ProxyHelper.SEND_HINT)).
Proof.
  unfold NodeHelper.sendData, ProxyHelper.sendData.
  destruct (bind_boardInfo st boardInfo) as [st0 boardInfo0].
  destruct (normalize_deviceMAC st0 boardInfo0) as [st1 [[]|e]]; [|left; by eexists _, _].
  destruct (payload st1 sensors boardInfo0 (bind_precision precision)) as [p|e];
    [|left; by eexists _, _].
  right. by exists st1, p.
Qed.
End SendDataRequests.

Section AgentAndClient.
Context `{Host}.


(** X21. What [submitSensorData] posts: the sensor array and the metadata as
    they were passed, [statusOTA] false when it is omitted, and a
    [signalStrength] key only when a signal strength other than [null] was
    passed ([0] is kept). *)
Theorem submitSensorData_document
    (sendKey boardKey : string)
    (sensorArray macAddress architecture firmwareVersion statusOTA signalStrength : value) :
  exists (document : value) (boardInfo : gmap string value),
    ConsentiumThings.submitSensorData sendKey boardKey sensorArray macAddress architecture
      firmwareVersion statusOTA signalStrength
    = ConsentiumThings.exchange
        {| req_url := "https://api.consentiumiot.com/v2/updateData?sendKey="
                      +:+ encodeURIComponent sendKey
                      +:+ "&boardKey=" +:+ encodeURIComponent boardKey;
           req_method := "POST";
           req_headers := [("Content-Type", "application/json")];
           req_body := Some (JSON_stringify document);
           req_agent := None |}
    ∧ field (field document "sensors") "sensorData" = sensorArray
    ∧ field document "boardInfo" = VObj boardInfo
    ∧ boardInfo !! "firmwareVersion" = Some firmwareVersion
    ∧ boardInfo !! "architecture" = Some architecture
    ∧ boardInfo !! "deviceMAC" = Some macAddress
    ∧ boardInfo !! "statusOTA"
      = Some (match statusOTA with VUndefined => VBool false | other => other end)
    ∧ boardInfo !! "signalStrength"
      = match signalStrength with
        | VUndefined | VNull => None
        | other => Some other
        end.
Proof.
  unfold ConsentiumThings.submitSensorData.
  eexists _, _. split; [reflexivity|].
  unfold ConsentiumThings.dataPayload.
  split; [reflexivity|]. split; [reflexivity|].
  destruct signalStrength; repeat split; reflexivity.
Qed.

(** X22. The three calls of the plain client return the parsed body of a
    response whose status is ok. *)
Theorem client_returns_the_parsed_body
    (sendKey receiveKey boardKey : string)
    (sensorArray macAddress architecture firmwareVersion statusOTA signalStrength : value)
    (res : response) (text : string) (json : value) :
  (∀ req, fetch req = Resolved res) ->
  res_text res = Ok text ->
  JSON_parse text = Some json ->
  res_ok res = true ->
  ConsentiumThings.submitSensorData sendKey boardKey sensorArray macAddress architecture
    firmwareVersion statusOTA signalStrength = Ok json
  ∧ ConsentiumThings.getHistoricalData receiveKey boardKey = Ok json
  ∧ ConsentiumThings.getRecentData receiveKey boardKey = Ok json.
Proof.
  intros Hf Ht Hj Hok.
  unfold ConsentiumThings.submitSensorData, ConsentiumThings.getHistoricalData,
    ConsentiumThings.getRecentData, ConsentiumThings.exchange, await_fetch,
    ConsentiumThings.response_json.
  rewrite !Hf, !bind_Ok, Ht, !bind_Ok, Hj, !bind_Ok, Hok. by repeat split.
Qed.

(** X23. A body that is not JSON makes the three calls throw the [SyntaxError]
    of the parser, whatever the status: for a response that is not ok the
    caller gets this error and not the status. *)
Theorem client_throws_on_a_body_that_is_not_json
    (sendKey receiveKey boardKey : string)
    (sensorArray macAddress architecture firmwareVersion statusOTA signalStrength : value)
    (res : response) (text : string) :
  (∀ req, fetch req = Resolved res) ->
  res_text res = Ok text ->
  JSON_parse text = None ->
  ConsentiumThings.submitSensorData sendKey boardKey sensorArray macAddress architecture
    firmwareVersion statusOTA signalStrength
  = Throw (mkError (VStr (syntax_error_message text)))
  ∧ ConsentiumThings.getHistoricalData receiveKey boardKey
    = Throw (mkError (VStr (syntax_error_message text)))
  ∧ ConsentiumThings.getRecentData receiveKey boardKey
    = Throw (mkError (VStr (syntax_error_message text))).
Proof.
  intros Hf Ht Hj.
  unfold ConsentiumThings.submitSensorData, ConsentiumThings.getHistoricalData,
    ConsentiumThings.getRecentData, ConsentiumThings.exchange, await_fetch,
    ConsentiumThings.response_json.
  rewrite !Hf, !bind_Ok, Ht, !bind_Ok, Hj. by repeat split.
Qed.

Lemma exchange_not_ok_message req res text json :
  fetch req = Resolved res ->
  res_text res = Ok text ->
  JSON_parse text = Some json ->
  res_ok res = false ->
  ConsentiumThings.exchange req
  = match json with
    | VUndefined | VNull => Throw (type_error (PropertyOfNullish "message"))
    | _ =>
        Throw (mkError (VStr ("API request failed with status "
                              +:+ NumberToString (res_status res) +:+ ": "
                              +:+ ToString (or_else (field json "message")
                                              (VStr (res_statusText res))))))
    end.
Proof.
  intros Hf Ht Hj Hok.
  unfold ConsentiumThings.exchange, await_fetch, ConsentiumThings.response_json.
  rewrite Hf, bind_Ok, Ht, bind_Ok, Hj, bind_Ok, Hok. simpl negb. cbv iota.
  by destruct json.
Qed.

(** X24. On a status that is not ok, with a JSON body, the three calls throw an
    error whose message has the status and the [message] of the body, or
    the status text when the body has no truthy [message].  A body that is
    the JSON [null] throws a [TypeError] instead. *)
Theorem client_error_message
    (sendKey receiveKey boardKey : string)
    (sensorArray macAddress architecture firmwareVersion statusOTA signalStrength : value)
    (res : response) (text : string) (json : value) :
  (∀ req, fetch req = Resolved res) ->
  res_text res = Ok text ->
  JSON_parse text = Some json ->
  res_ok res = false ->
  let thrown :=
    match json with
    | VUndefined | VNull => Throw (type_error (PropertyOfNullish "message"))
    | _ =>
        Throw (mkError (VStr ("API request failed with status "
                              +:+ NumberToString (res_status res) +:+ ": "
                              +:+ ToString (or_else (field json "message")
                                              (VStr (res_statusText res))))))
    end in
  ConsentiumThings.submitSensorData sendKey boardKey sensorArray macAddress architecture
    firmwareVersion statusOTA signalStrength = thrown
  ∧ ConsentiumThings.getHistoricalData receiveKey boardKey = thrown
  ∧ ConsentiumThings.getRecentData receiveKey boardKey = thrown.
Proof.
  intros Hf Ht Hj Hok thrown.
  unfold ConsentiumThings.submitSensorData, ConsentiumThings.getHistoricalData,
    ConsentiumThings.getRecentData.
  by rewrite !(exchange_not_ok_message _ _ _ _ (Hf _) Ht Hj Hok).
Qed.
End AgentAndClient.

(** ** Concrete runs of the further properties *)

Lemma flatten_reads_only_indexed_keys_run :
  flatten (H := mock_host offline no_json)
    (wide_feed_document {[ "info1" := VStr "Temp" ]} [ {[ "value1" := VNum 10%float ]} ])
  = flatten (H := mock_host offline no_json)
      (wide_feed_document
         (list_to_map [("info1", VStr "Temp"); ("info9", VStr "Spare"); ("name", VStr "b")])
         [list_to_map [("value1", VNum 10%float); ("value0", VNum 7%float);
                       ("created_at", VStr "2024-01-01")]]).
Proof.
  apply (flatten_reads_only_indexed_keys (H := mock_host offline no_json)).
  - intros i Hi.
    assert (Hcases : i = 1 ∨ i = 2 ∨ i = 3 ∨ i = 4 ∨ i = 5 ∨ i = 6 ∨ i = 7 ∨ i = 8) by lia.
    destruct Hcases as [->|[->|[->|[->|[->|[->|[->| ->]]]]]]]; vm_compute; reflexivity.
  - constructor; [|constructor]. intros i Hi.
    assert (Hcases : i = 1 ∨ i = 2 ∨ i = 3 ∨ i = 4 ∨ i = 5 ∨ i = 6 ∨ i = 7 ∨ i = 8) by lia.
    destruct Hcases as [->|[->|[->|[->|[->|[->|[->| ->]]]]]]]; vm_compute; reflexivity.
Defined.

Lemma receiveData_nothing_to_flatten_run :
  NodeHelper.receiveData
    (H := mock_host html_page (fun _ => Some (obj [("board", obj [("info1", VStr "Temp")])])))
    NodeHelper.initial "receiveKey" "boardKey" VUndefined
  = Ok (obj [("ok", VBool true); ("status", VNum 200%float); ("feeds", VArr []);
             ("body", obj [("board", obj [("info1", VStr "Temp")])])]).
Proof.
  destruct (receiveData_nothing_to_flatten
           (H := mock_host html_page
                   (fun _ => Some (obj [("board", obj [("info1", VStr "Temp")])])))
           NodeHelper.initial ProxyHelper.initial "receiveKey" "boardKey" VUndefined
           {| res_ok := true; res_status := 200%float; res_statusText := "OK";
              res_text := Ok "<html></html>" |} "<html></html>"
           (obj [("board", obj [("info1", VStr "Temp")])]))
    as [Hnode _].
  - intros req. reflexivity.
  - reflexivity.
  - reflexivity.
  - reflexivity.
  - left. vm_compute. reflexivity.
  - rewrite Hnode. vm_compute. reflexivity.
Defined.

Lemma receiveData_feeds_not_iterable_run :
  NodeHelper.receiveData
    (H := mock_host html_page (fun _ => Some (obj [("feeds", VNum 5%float)])))
    NodeHelper.initial "receiveKey" "boardKey" VUndefined
  = Ok (obj [("ok", VBool false); ("status", VNum 0%float); ("error", VStr "TypeError")]).
Proof.
  destruct (receiveData_feeds_not_iterable
           (H := mock_host html_page (fun _ => Some (obj [("feeds", VNum 5%float)])))
           NodeHelper.initial ProxyHelper.initial "receiveKey" "boardKey" VUndefined
           {| res_ok := true; res_status := 200%float; res_statusText := "OK";
              res_text := Ok "<html></html>" |} "<html></html>"
           (obj [("feeds", VNum 5%float)]))
    as [Hnode _].
  - intros req. reflexivity.
  - reflexivity.
  - reflexivity.
  - reflexivity.
  - vm_compute. reflexivity.
  - intros feedList. vm_compute. discriminate.
  - intros s. vm_compute. discriminate.
  - rewrite Hnode. vm_compute. reflexivity.
Defined.

Lemma receiveData_null_feed_run :
  NodeHelper.receiveData
    (H := mock_host html_page
            (fun _ => Some (obj [("board", obj [("info2", VStr "Light")]);
                                 ("feeds", VArr [obj [("value2", VNum 3%float)]; VNull])])))
    NodeHelper.initial "receiveKey" "boardKey" VUndefined
  = Ok (obj [("ok", VBool false); ("status", VNum 0%float); ("error", VStr "TypeError")]).
Proof.
  destruct (receiveData_null_feed
           (H := mock_host html_page
                   (fun _ => Some (obj [("board", obj [("info2", VStr "Light")]);
                                        ("feeds", VArr [obj [("value2", VNum 3%float)];
                                                        VNull])])))
           NodeHelper.initial ProxyHelper.initial "receiveKey" "boardKey" VUndefined
           {| res_ok := true; res_status := 200%float; res_statusText := "OK";
              res_text := Ok "<html></html>" |} "<html></html>"
           (list_to_map [("board", obj [("info2", VStr "Light")]);
                         ("feeds", VArr [obj [("value2", VNum 3%float)]; VNull])])
           {[ "info2" := VStr "Light" ]} [ {[ "value2" := VNum 3%float ]} ] [] 2)
    as [Hnode _].
  - intros req. reflexivity.
  - reflexivity.
  - reflexivity.
  - vm_compute. reflexivity.
  - vm_compute. reflexivity.
  - vm_compute. reflexivity.
  - rewrite Hnode. vm_compute. reflexivity.
Defined.

Lemma receiveData_falsy_body_run :
  exists props : gmap string value,
    NodeHelper.receiveData (H := mock_host html_page (fun _ => Some VNull))
      NodeHelper.initial "receiveKey" "boardKey" VUndefined = Ok (VObj props)
    ∧ props !! "body" = Some (VStr "<html></html>")
    ∧ props !! "feeds" = None.
Proof.
  destruct (receiveData_falsy_body (H := mock_host html_page (fun _ => Some VNull))
              NodeHelper.initial ProxyHelper.initial "receiveKey" "boardKey" VUndefined
              {| res_ok := true; res_status := 200%float; res_statusText := "OK";
                 res_text := Ok "<html></html>" |} "<html></html>" VNull)
    as (props & Hnode & _ & _ & _ & Hbody & Hfeeds).
  - intros req. reflexivity.
  - reflexivity.
  - reflexivity.
  - reflexivity.
  - by exists props.
Defined.

Lemma receiveData_unreadable_body_run :
  NodeHelper.receiveData
    (H := mock_host
            (fun _ => Resolved {| res_ok := true; res_status := 200%float;
                                  res_statusText := "OK";
                                  res_text := Throw (mkError (VStr "terminated")) |})
            no_json)
    NodeHelper.initial "receiveKey" "boardKey" VUndefined
  = Ok (obj [("ok", VBool false); ("status", VNum 0%float); ("error", VStr "terminated")]).
Proof.
  destruct (receiveData_unreadable_body
           (H := mock_host
                   (fun _ => Resolved {| res_ok := true; res_status := 200%float;
                                         res_statusText := "OK";
                                         res_text := Throw (mkError (VStr "terminated")) |})
                   no_json)
           NodeHelper.initial ProxyHelper.initial "receiveKey" "boardKey" VUndefined
           {| res_ok := true; res_status := 200%float; res_statusText := "OK";
              res_text := Throw (mkError (VStr "terminated")) |}
           (mkError (VStr "terminated")))
    as [Hnode _].
  - intros req. reflexivity.
  - reflexivity.
  - rewrite Hnode. vm_compute. reflexivity.
Defined.

Lemma sendData_leaves_the_store_alone_run :
  exists props1 : gmap string value,
    fst (NodeHelper.sendData (H := mock_host offline no_json) NodeHelper.initial store0
           "sendKey" "boardKey" (VArr (VObj <$> sensors0)) (Val VUndefined) VUndefined)
      !! 1%positive = Some props1
    ∧ props1 = board0.
Proof.
  destruct (sendData_leaves_the_store_alone (H := mock_host offline no_json)
              NodeHelper.initial ProxyHelper.initial store0 "sendKey" "boardKey"
              (VArr (VObj <$> sensors0)) (Val VUndefined) VUndefined 1%positive board0)
    as ((props1 & Hlookup & _ & Hsame) & _).
  - vm_compute. reflexivity.
  - exists props1. split; [exact Hlookup|]. apply Hsame. discriminate.
Defined.

Lemma sendData_writes_before_it_throws_run :
  exists (n : value) (e : error),
    normalizeMac (H := mock_host offline no_json) (VStr "aa-bb-cc-11-22-33") = Ok n
    ∧ NodeHelper.sendData (H := mock_host offline no_json) NodeHelper.initial store0
        "sendKey" "boardKey" VUndefined (Ref 1%positive) VUndefined
      = (<[1%positive := <["deviceMAC" := n]> board0]> store0, Throw e).
Proof.
  destruct (sendData_writes_before_it_throws (H := mock_host offline no_json)
              NodeHelper.initial ProxyHelper.initial store0 1%positive board0
              (VStr "aa-bb-cc-11-22-33") "sendKey" "boardKey" VUndefined VUndefined)
    as (n & e & Hn & Hnode & _).
  - vm_compute. reflexivity.
  - vm_compute. reflexivity.
  - reflexivity.
  - intros elems. discriminate.
  - by exists n, e.
Defined.

Lemma sendData_again_keeps_the_store_run :
  fst (NodeHelper.sendData (H := mock_host offline no_json) NodeHelper.initial
         (fst (NodeHelper.sendData (H := mock_host offline no_json) NodeHelper.initial store0
                 "sendKey" "boardKey" (VArr []) (Ref 1%positive) VUndefined))
         "sendKey" "boardKey" (VArr (VObj <$> sensors0)) (Ref 1%positive) (VNum 2%float))
  = fst (NodeHelper.sendData (H := mock_host offline no_json) NodeHelper.initial store0
           "sendKey" "boardKey" (VArr []) (Ref 1%positive) VUndefined).
Proof.
  apply (@sendData_again_keeps_the_store (mock_host offline no_json)
           (mock_host_laws offline no_json) NodeHelper.initial ProxyHelper.initial store0
           1%positive "sendKey" "boardKey" (VArr []) (VArr (VObj <$> sensors0))
           VUndefined (VNum 2%float)).
Defined.

Lemma sendData_board_metadata_is_filled_run :
  exists (st' : store) (p : value) (req : request),
    NodeHelper.sendData (H := mock_host offline no_json) NodeHelper.initial
      {[ 1%positive := {[ "firmwareVersion" := VStr "" ]} ]}
      "sendKey" "boardKey" (VArr (VObj <$> sensors0)) (Ref 1%positive) VUndefined
    = (st', transmit (H := mock_host offline no_json) req NodeHelper.FETCH_HINT)
    ∧ req_body req = Some (JSON_stringify (Host := mock_host offline no_json) p)
    ∧ field (field p "boardInfo") "firmwareVersion" = VStr "0.0".
Proof.
  destruct (sendData_board_metadata_is_filled (H := mock_host offline no_json)
              NodeHelper.initial {[ 1%positive := {[ "firmwareVersion" := VStr "" ]} ]}
              1%positive {[ "firmwareVersion" := VStr "" ]}
              "sendKey" "boardKey" sensors0 VUndefined)
    as (st' & p & req & Hsend & Hbody & _ & _ & _ & _ & _ & Hfw & _).
  - vm_compute. reflexivity.
  - intros x. apply mock_toFixed_returns.
  - exists st', p, req. split; [exact Hsend|]. split; [exact Hbody|].
    apply Hfw. vm_compute. reflexivity.
Defined.

Lemma proxy_sendData_relays_the_arguments_run :
  exists (st' : store) (props' : gmap string value) (req : request),
    ProxyHelper.sendData (H := mock_host offline no_json) ProxyHelper.initial store0
      "sendKey" "boardKey" (VArr (VObj <$> sensors0)) (Ref 1%positive) VUndefined
    = (st', transmit (H := mock_host offline no_json) req ProxyHelper.SEND_HINT)
    ∧ req_url req = "/api/send"
    ∧ req_body req
      = Some (JSON_stringify (Host := mock_host offline no_json)
                (obj [("sendKey", VStr "sendKey"); ("boardKey", VStr "boardKey");
                      ("sensors", VArr (VObj <$> sensors0)); ("boardInfo", VObj props')])).
Proof.
  destruct (proxy_sendData_relays_the_arguments (H := mock_host offline no_json)
              ProxyHelper.initial "/api" store0 1%positive board0
              "sendKey" "boardKey" sensors0 VUndefined)
    as (st' & props' & req & Hsend & _ & _ & Hurl & _ & Hbody).
  - reflexivity.
  - discriminate.
  - vm_compute. reflexivity.
  - intros x. apply mock_toFixed_returns.
  - by exists st', props', req.
Defined.

Lemma setProxy_trailing_slash_run :
  ProxyHelper.receiveData (H := mock_host offline no_json)
    (ProxyHelper.setProxy (Some "http://localhost:3000/api/") ProxyHelper.initial)
    "receiveKey" "boardKey" VUndefined
  = ProxyHelper.receiveData (H := mock_host offline no_json)
      (ProxyHelper.setProxy (Some "http://localhost:3000/api") ProxyHelper.initial)
      "receiveKey" "boardKey" VUndefined.
Proof.
  destruct (setProxy_trailing_slash (H := mock_host offline no_json)
              ProxyHelper.initial "http://localhost:3000/api" store0
              "sendKey" "receiveKey" "boardKey" (VArr []) (Val VUndefined)
              VUndefined VUndefined) as [_ Hreceive].
  - discriminate.
  - intros t Ht.
    do 25 (destruct t as [|? t]; [discriminate Ht|injection Ht as ? Ht; subst]).
    destruct t; discriminate Ht.
  - exact Hreceive.
Defined.


Lemma client_returns_the_parsed_body_run :
  ConsentiumThings.getRecentData
    (H := mock_host html_page (fun _ => Some (obj [("feeds", VArr [])])))
    "receiveKey" "boardKey"
  = Ok (obj [("feeds", VArr [])]).
Proof.
  destruct (client_returns_the_parsed_body
              (H := mock_host html_page (fun _ => Some (obj [("feeds", VArr [])])))
              "sendKey" "receiveKey" "boardKey"
              (VArr []) VUndefined VUndefined VUndefined VUndefined VUndefined
              {| res_ok := true; res_status := 200%float; res_statusText := "OK";
                 res_text := Ok "<html></html>" |} "<html></html>" (obj [("feeds", VArr [])]))
    as (_ & _ & Hrecent).
  - intros req. reflexivity.
  - reflexivity.
  - reflexivity.
  - reflexivity.
  - exact Hrecent.
Defined.

Lemma client_throws_on_a_body_that_is_not_json_run :
  ConsentiumThings.getHistoricalData (H := mock_host html_page no_json)
    "receiveKey" "boardKey"
  = Throw (mkError (VStr "SyntaxError")).
Proof.
  destruct (client_throws_on_a_body_that_is_not_json (H := mock_host html_page no_json)
              "sendKey" "receiveKey" "boardKey"
              (VArr []) VUndefined VUndefined VUndefined VUndefined VUndefined
              {| res_ok := true; res_status := 200%float; res_statusText := "OK";
                 res_text := Ok "<html></html>" |} "<html></html>")
    as (_ & Hhistorical & _).
  - intros req. reflexivity.
  - reflexivity.
  - reflexivity.
  - exact Hhistorical.
Defined.

Lemma client_error_message_run :
  ConsentiumThings.getRecentData
    (H := mock_host server_error (fun _ => Some (obj [("message", VStr "Invalid key")])))
    "receiveKey" "boardKey"
  = Throw (mkError (VStr "API request failed with status 500: Invalid key")).
Proof.
  destruct (client_error_message
              (H := mock_host server_error
                      (fun _ => Some (obj [("message", VStr "Invalid key")])))
              "sendKey" "receiveKey" "boardKey"
              (VArr []) VUndefined VUndefined VUndefined VUndefined VUndefined
              {| res_ok := false; res_status := 500%float;
                 res_statusText := "Internal Server Error"; res_text := Ok "{}" |}
              "{}" (obj [("message", VStr "Invalid key")]))
    as (_ & _ & Hrecent).
  - intros req. reflexivity.
  - reflexivity.
  - reflexivity.
  - reflexivity.
  - rewrite Hrecent. vm_compute. reflexivity.
Defined.
